(** * Verification of the EMQ exporter collector (collector.go)

    A shallow embedding of the collector of the Prometheus exporter for
    EMQ brokers: the [validID] regular expression and the memory-field
    extraction built on it, the four fetch operations of the broker
    client (with the base address shared through a [**url.URL]), the
    metric registry built by [NewEMQCollector], and the [Collect] cycle. *)

From Stdlib Require Import String Ascii List ZArith Lia Bool.
From Stdlib Require Import Floats.
Import ListNotations.
Open Scope Z_scope.

(* ------------------------------------------------------------------ *)
(** ** The [validID] regular expression and [FindAllString] *)

Module Regexp.

(** Character classes used by the pattern. Go's [\d] is ASCII [0-9]. *)
Definition is_digit (c : ascii) : bool :=
  let n := nat_of_ascii c in (Nat.leb 48 n && Nat.leb n 57)%bool.

Definition is_dot (c : ascii) : bool := Ascii.eqb c "."%char.

(** The fragment of Go's regexp syntax used by [validID]. *)
Inductive regex : Type :=
  | RClass (p : ascii -> bool)          (* a single character class *)
  | RPlus (p : ascii -> bool)           (* [p{1,}], greedy *)
  | RSeq (r1 r2 : regex)
  | RAlt (r1 r2 : regex).               (* leftmost-first alternation *)

(** [validID = regexp.MustCompile(`\d{1,}[.]\d{1,}|\d{1,}`)] *)
Definition validID : regex :=
  RAlt (RSeq (RPlus is_digit) (RSeq (RClass is_dot) (RPlus is_digit)))
       (RPlus is_digit).

Fixpoint take_while (p : ascii -> bool) (s : list ascii) : list ascii :=
  match s with
  | [] => []
  | c :: s' => if p c then c :: take_while p s' else []
  end.

(** Greedy repetition: try the longest count first, then shorter ones,
    down to the minimum of one. *)
Fixpoint try_down {A} (n : nat) (f : nat -> option A) : option A :=
  match n with
  | O => None
  | S m => match f n with Some x => Some x | None => try_down m f end
  end.

(** Backtracking matcher with leftmost-first (Perl) preference, which is
    the match semantics of Go's [regexp] package. The continuation receives
    the remaining input. *)
Fixpoint bt (r : regex) (s : list ascii)
    (k : list ascii -> option (list ascii)) : option (list ascii) :=
  match r with
  | RClass p => match s with c :: s' => if p c then k s' else None | [] => None end
  | RPlus p => try_down (length (take_while p s)) (fun i => k (skipn i s))
  | RSeq r1 r2 => bt r1 s (fun s' => bt r2 s' k)
  | RAlt r1 r2 => match bt r1 s k with Some x => Some x | None => bt r2 s k end
  end.

(** Anchored match at the start of [s]: the matched prefix and the rest. *)
Definition match_here (r : regex) (s : list ascii) : option (list ascii * list ascii) :=
  match bt r s Some with
  | Some rest => Some (firstn (length s - length rest) s, rest)
  | None => None
  end.

(** Leftmost match: the first start position at which the pattern matches. *)
Fixpoint find_first (r : regex) (s : list ascii) : option (list ascii * list ascii) :=
  match match_here r s with
  | Some m => Some m
  | None => match s with [] => None | _ :: s' => find_first r s' end
  end.

(** [FindAllString(s, -1)]: successive non-overlapping leftmost matches.
    The pattern never matches the empty string, so each match consumes
    input and [length s + 1] rounds suffice. *)
Fixpoint find_all_fuel (fuel : nat) (r : regex) (s : list ascii) : list (list ascii) :=
  match fuel with
  | O => []
  | S f => match find_first r s with
           | None => []
           | Some (m, rest) => m :: find_all_fuel f r rest
           end
  end.

Definition FindAllString (r : regex) (s : string) : list string :=
  let l := list_ascii_of_string s in
  map string_of_list_ascii (find_all_fuel (S (length l)) r l).

(** The spec's reading of [validID] (refinement target, from the spec's
    words, not from the source): the first maximal run of decimal digits
    with an optional single embedded decimal point. *)
Fixpoint drop_while (p : ascii -> bool) (s : list ascii) : list ascii :=
  match s with
  | [] => []
  | c :: s' => if p c then drop_while p s' else s
  end.

Definition run_at_spec (s : list ascii) : list ascii :=
  let d1 := take_while is_digit s in
  match drop_while is_digit s with
  | c :: r =>
      if is_dot c then
        match take_while is_digit r with
        | [] => d1
        | d2 => d1 ++ c :: d2
        end
      else d1
  | [] => d1
  end.

Fixpoint first_run_spec (s : list ascii) : option (list ascii) :=
  match s with
  | [] => None
  | c :: s' => if is_digit c then Some (run_at_spec s) else first_run_spec s'
  end.

End Regexp.

(* ------------------------------------------------------------------ *)
(** ** The memory-field extraction *)

Module Memory.
Import Regexp.

(** Errors returned by [strconv.ParseFloat]. *)
Inductive parse_error : Type := ErrSyntax | ErrRange.

(** The outcome of a [Value] closure: a float, or a run-time panic
    (here: [index out of range] on [str[0]]). *)
Inductive value_result : Type :=
  | VOk (v : float) (logged_error : bool)
  | VPanic.

Section Extraction.

(** [strconv.ParseFloat(_, 64)] from Go's standard library. *)
Variable ParseFloat : string -> float * option parse_error.

(** The [Value] closure of [memory_total] and of [memory_used]:
<<
    str := validID.FindAllString(field, -1)
    i, err := strconv.ParseFloat(str[0], 64)
    if err != nil { log.Error("error converting string into number") }
    return float64(i * 1000000)
>> *)
Definition memory_value (field : string) : value_result :=
  match FindAllString validID field with
  | [] => VPanic
  | m :: _ =>
      let (i, err) := ParseFloat m in
      VOk (i * 1000000)%float (match err with Some _ => true | None => false end)
  end.

End Extraction.

(** [strconv] fast path: a decimal literal [d1] or [d1.d2] read as its
    integer mantissa and its number of fractional digits. *)
Fixpoint digits_value (acc : Z) (l : list ascii) : Z :=
  match l with
  | [] => acc
  | c :: l' => digits_value (10 * acc + (Z.of_nat (nat_of_ascii c) - 48)) l'
  end.

Definition decimal_parts (m : string) : option (Z * nat) :=
  let l := list_ascii_of_string m in
  let d1 := take_while is_digit l in
  match d1, drop_while is_digit l with
  | [], _ => None
  | _, [] => Some (digits_value 0 d1, O)
  | _, c :: r =>
      if is_dot c && negb (Nat.eqb (length r) 0)
         && Nat.eqb (length (take_while is_digit r)) (length r)
      then Some (digits_value 0 (d1 ++ r), length r)
      else None
  end.

(** [float64(n)] for a Go integer: round to nearest, ties to even. *)
Definition float_of_Z (z : Z) : float :=
  SF2Prim (SpecFloat.binary_normalize FloatOps.prec FloatOps.emax z 0 false).

(** [strconv.ParseFloat] on its exact path: a decimal with a mantissa
    below 2^53 and at most 22 fractional digits is the correctly rounded
    quotient of two exactly represented floats. Outside that path this
    instance reports a syntax error; it stands for the library only on
    the exact path. *)
Definition ParseFloat_exact (m : string) : float * option parse_error :=
  match decimal_parts m with
  | Some (mant, e) => ((float_of_Z mant / float_of_Z (10 ^ Z.of_nat e))%float, None)
  | None => (0%float, Some ErrSyntax)
  end.

End Memory.

(* ------------------------------------------------------------------ *)
(** ** Response schema (the JSON payloads of the broker) *)

Module Schema.
Local Open Scope string_scope.

(** [type nodesResponseResult struct], 12 fields (JSON keys in comments). *)
Record nodesResponseResult : Type := mk_nodesResponseResult {
  NodeName : string (* "name" *);
  Release : string (* "otp_release" *);
  Status : string (* "node_status" *);
  MemoryTotal : string (* "memory_total" *);
  MemoryUsed : string (* "memory_used" *);
  ProcessesAvailable : Z (* "process_available" *);
  ProcessesUsed : Z (* "process_used" *);
  MaxFds : Z (* "max_fds" *);
  Clients : Z (* "clients" *);
  Load1 : string (* "load1" *);
  Load5 : string (* "load5" *);
  Load15 : string (* "load15" *)
}.

(** [type metricsResponseResult struct], 38 fields (JSON keys in comments). *)
Record metricsResponseResult : Type := mk_metricsResponseResult {
  MessagesDropped : Z (* "messages/dropped" *);
  PacketsReceived : Z (* "packets/received" *);
  PacketsPubcompReceived : Z (* "packets/pubcomp/received" *);
  PacketsUnsuback : Z (* "packets/unsuback" *);
  PacketsPingresp : Z (* "packets/pingresp" *);
  PacketsPingreq : Z (* "packets/pingreq" *);
  MessagesQos0Sent : Z (* "messages/qos0/sent" *);
  MessagesQos2Received : Z (* "messages/qos2/received" *);
  PacketsPubcompMissed : Z (* "packets/pubcomp/missed" *);
  MessagesRetained : Z (* "messages/retained" *);
  PacketsSuback : Z (* "packets/suback" *);
  BytesSent : Z (* "bytes/sent" *);
  PacketsPubackReceived : Z (* "packets/puback/received" *);
  PacketsPubrecReceived : Z (* "packets/pubrec/received" *);
  MessagesQos2Sent : Z (* "messages/qos2/sent" *);
  PacketsPubrecSent : Z (* "packets/pubrec/sent" *);
  PacketsPubackSent : Z (* "packets/puback/sent" *);
  PacketsPubrelMissed : Z (* "packets/pubrel/missed" *);
  PacketsConnect : Z (* "packets/connect" *);
  MessagesQos1Sent : Z (* "messages/qos1/sent" *);
  PacketsConnack : Z (* "packets/connack" *);
  PacketsPubrelReceived : Z (* "packets/pubrel/received" *);
  PacketsPublishReceived : Z (* "packets/publish/received" *);
  BytesReceived : Z (* "bytes/received" *);
  PacketsPubrelSent : Z (* "packets/pubrel/sent" *);
  PacketsPubrecMissed : Z (* "packets/pubrec/missed" *);
  PacketsSent : Z (* "packets/sent" *);
  MessagesQos0Received : Z (* "messages/qos0/received" *);
  PacketsPubcompSent : Z (* "packets/pubcomp/sent" *);
  MessagesReceived : Z (* "messages/received" *);
  MessagesSent : Z (* "messages/sent" *);
  PacketsSubscribe : Z (* "packets/subscribe" *);
  MessagesQos2Dropped : Z (* "messages/qos2/dropped" *);
  PacketsUnsubscribe : Z (* "packets/unsubscribe" *);
  MessagesQos1Received : Z (* "messages/qos1/received" *);
  PacketsDisconnect : Z (* "packets/disconnect" *);
  PacketsPublishSent : Z (* "packets/publish/sent" *);
  PacketsPubackMissed : Z (* "packets/puback/missed" *)
}.

(** [type statsResponseResult struct], 14 fields (JSON keys in comments). *)
Record statsResponseResult : Type := mk_statsResponseResult {
  ClientsCount : Z (* "clients/count" *);
  ClientsMax : Z (* "clients/max" *);
  RetainedCount : Z (* "retained/count" *);
  RetainedMax : Z (* "retained/max" *);
  RoutesCount : Z (* "routes/count" *);
  RoutesMax : Z (* "routes/max" *);
  SessionsCount : Z (* "sessions/count" *);
  SessionsMax : Z (* "sessions/max" *);
  SubscribersCount : Z (* "subscribers/count" *);
  SubscribersMax : Z (* "subscribers/max" *);
  SubscriptionsCount : Z (* "subscriptions/count" *);
  SubscriptionsMax : Z (* "subscriptions/max" *);
  TopicsCount : Z (* "topics/count" *);
  TopicsMax : Z (* "topics/max" *)
}.

(** [type ManagementResponseResult struct], 7 fields (JSON keys in comments). *)
Record ManagementResponseResult : Type := mk_ManagementResponseResult {
  Name : string (* "name" *);
  Version : string (* "version" *);
  Sysdescr : string (* "sysdescr" *);
  Uptime : string (* "uptime" *);
  Datetime : string (* "datetime" *);
  OtpRelease : string (* "otp_release" *);
  NodeStatus : string (* "node_status" *)
}.

(** The [{result, code}] wrapper shared by the four payloads:
    [nodesResponse], [metricsResponse], [statsResponse] and
    [managementResponse]. *)
Record response (T : Type) : Type := mk_response {
  Result : T (* "result" *);
  Code : Z (* "code" *)
}.
Arguments mk_response {T} _ _.
Arguments Result {T} _.
Arguments Code {T} _.

Definition nodesResponse := response nodesResponseResult.
Definition metricsResponse := response metricsResponseResult.
Definition statsResponse := response statsResponseResult.
Definition managementResponse := response (list ManagementResponseResult).

(** [var managementData ManagementResponseResult]: Go's zero value. *)
Definition zero_ManagementResponseResult : ManagementResponseResult :=
  mk_ManagementResponseResult "" "" "" "" "" "" "".

(** Go's zero values of the integer-only payloads. *)
Definition zero_metricsResponseResult : metricsResponseResult :=
  mk_metricsResponseResult 0 0 0 0 0 0 0 0 0 0 0 0 0 0 0 0 0 0 0 0 0 0 0 0 0 0 0 0 0 0 0 0 0 0 0 0 0 0.
Definition zero_statsResponseResult : statsResponseResult :=
  mk_statsResponseResult 0 0 0 0 0 0 0 0 0 0 0 0 0 0.

Record combinedResponse : Type := mk_combinedResponse {
  nodes : nodesResponse;
  metrics : metricsResponse;
  stats : statsResponse;
  ClusterSize : Z
}.

End Schema.

(* ------------------------------------------------------------------ *)
(** ** The metric registry built by [NewEMQCollector] *)

Module Registry.
Import Memory Schema.
Local Open Scope string_scope.

(** [prometheus.ValueType] *)
Inductive ValueType : Type := CounterValue | GaugeValue | UntypedValue.

(** [prometheus.Desc] (no constant labels are used here). *)
Record prometheus_Desc : Type := NewDesc {
  fqName : string;
  help : string;
  variableLabels : list string
}.

(** [prometheus.BuildFQName]: join the non-empty parts with "_";
    an empty name gives the empty string. *)
Definition BuildFQName (namespace subsystem name : string) : string :=
  if String.eqb name "" then ""
  else match String.eqb namespace "", String.eqb subsystem "" with
       | false, false => namespace ++ "_" ++ subsystem ++ "_" ++ name
       | false, true => namespace ++ "_" ++ name
       | true, false => subsystem ++ "_" ++ name
       | true, true => name
       end.

Definition namespace : string := "emq".
Definition defaultLabels : list string := ["node"; "otp_release"; "version"].

(** [type metric struct { Type; Desc; Value func(combinedResponse) float64 }] *)
Record metric : Type := {
  Type_ : ValueType;
  Desc : prometheus_Desc;
  Value : combinedResponse -> value_result
}.

(** [return float64(n)] for an integer field: never fails. *)
Definition int_value (n : Z) : value_result := VOk (float_of_Z n) false.

Section Build.

Variable ParseFloat : string -> float * option parse_error.

(** The [metrics] slice of [NewEMQCollector], in source order. *)
Definition registry : list metric := [
    {| Type_ := GaugeValue;
       Desc := NewDesc (BuildFQName namespace "cluster" "size")
                 "The total number of EMQ nodes in your cluster."
                 defaultLabels;
       Value := fun values => int_value (ClusterSize values) |};
    {| Type_ := GaugeValue;
       Desc := NewDesc (BuildFQName namespace "node" "process_used")
                 "The amount of processes used by the EMQ node."
                 defaultLabels;
       Value := fun values => int_value (ProcessesUsed (Result (nodes values))) |};
    {| Type_ := GaugeValue;
       Desc := NewDesc (BuildFQName namespace "node" "process_available")
                 "The amount of processes available to the EMQ node."
                 defaultLabels;
       Value := fun values => int_value (ProcessesAvailable (Result (nodes values))) |};
    {| Type_ := GaugeValue;
       Desc := NewDesc (BuildFQName namespace "node" "max_fds")
                 "The amount of file descriptors available to the EMQ node."
                 defaultLabels;
       Value := fun values => int_value (MaxFds (Result (nodes values))) |};
    {| Type_ := GaugeValue;
       Desc := NewDesc (BuildFQName namespace "node" "memory_total")
                 "The max amount of memory used to the EMQ node."
                 defaultLabels;
       Value := fun values => memory_value ParseFloat (MemoryTotal (Result (nodes values))) |};
    {| Type_ := GaugeValue;
       Desc := NewDesc (BuildFQName namespace "node" "memory_used")
                 "The amount of memory being used to the EMQ node."
                 defaultLabels;
       Value := fun values => memory_value ParseFloat (MemoryUsed (Result (nodes values))) |};
    {| Type_ := GaugeValue;
       Desc := NewDesc (BuildFQName namespace "metric" "packets_disconnected")
                 "The amount of packets disconnected"
                 defaultLabels;
       Value := fun values => int_value (PacketsDisconnect (Result (metrics values))) |};
    {| Type_ := GaugeValue;
       Desc := NewDesc (BuildFQName namespace "metric" "messages_qos2_received")
                 "The amount of packets QOS2 messages received"
                 defaultLabels;
       Value := fun values => int_value (MessagesQos2Received (Result (metrics values))) |};
    {| Type_ := GaugeValue;
       Desc := NewDesc (BuildFQName namespace "metric" "packets_suback")
                 "The amount of packets suback"
                 defaultLabels;
       Value := fun values => int_value (PacketsSuback (Result (metrics values))) |};
    {| Type_ := GaugeValue;
       Desc := NewDesc (BuildFQName namespace "metric" "packets_pubcomp_received")
                 "The amount of packets pubcomp received"
                 defaultLabels;
       Value := fun values => int_value (PacketsPubcompReceived (Result (metrics values))) |};
    {| Type_ := GaugeValue;
       Desc := NewDesc (BuildFQName namespace "metric" "packets_unsuback")
                 "The amount of packets unsuback"
                 defaultLabels;
       Value := fun values => int_value (PacketsUnsuback (Result (metrics values))) |};
    {| Type_ := GaugeValue;
       Desc := NewDesc (BuildFQName namespace "metric" "packets_pingresp")
                 "The amount of packets pingresp"
                 defaultLabels;
       Value := fun values => int_value (PacketsPingresp (Result (metrics values))) |};
    {| Type_ := GaugeValue;
       Desc := NewDesc (BuildFQName namespace "metric" "packets_pingreq")
                 "The amount of packets pingreq"
                 defaultLabels;
       Value := fun values => int_value (PacketsPingreq (Result (metrics values))) |};
    {| Type_ := GaugeValue;
       Desc := NewDesc (BuildFQName namespace "metric" "packets_pubrel_missed")
                 "The amount of packets pubrel missed"
                 defaultLabels;
       Value := fun values => int_value (PacketsPubrelMissed (Result (metrics values))) |};
    {| Type_ := GaugeValue;
       Desc := NewDesc (BuildFQName namespace "metric" "packets_sent")
                 "The amount of packets sent"
                 defaultLabels;
       Value := fun values => int_value (PacketsSent (Result (metrics values))) |};
    {| Type_ := GaugeValue;
       Desc := NewDesc (BuildFQName namespace "metric" "messages_qos2_sent")
                 "The amount of QOS2 messages sent"
                 defaultLabels;
       Value := fun values => int_value (MessagesQos2Sent (Result (metrics values))) |};
    {| Type_ := GaugeValue;
       Desc := NewDesc (BuildFQName namespace "metric" "packets_pubrec_missed")
                 "The amount of packets pubrec missed"
                 defaultLabels;
       Value := fun values => int_value (PacketsPubrecMissed (Result (metrics values))) |};
    {| Type_ := GaugeValue;
       Desc := NewDesc (BuildFQName namespace "metric" "packets_unsubscribe")
                 "The amount of packets disconnected"
                 defaultLabels;
       Value := fun values => int_value (PacketsUnsubscribe (Result (metrics values))) |};
    {| Type_ := GaugeValue;
       Desc := NewDesc (BuildFQName namespace "metric" "bytes_received")
                 "The amount of bytes received"
                 defaultLabels;
       Value := fun values => int_value (BytesReceived (Result (metrics values))) |};
    {| Type_ := GaugeValue;
       Desc := NewDesc (BuildFQName namespace "metric" "packets_connack")
                 "The amount of packets connack"
                 defaultLabels;
       Value := fun values => int_value (PacketsConnack (Result (metrics values))) |};
    {| Type_ := GaugeValue;
       Desc := NewDesc (BuildFQName namespace "metric" "messages_received")
                 "The amount of messages received"
                 defaultLabels;
       Value := fun values => int_value (MessagesReceived (Result (metrics values))) |};
    {| Type_ := GaugeValue;
       Desc := NewDesc (BuildFQName namespace "metric" "messages_dropped")
                 "The amount of messages dropped"
                 defaultLabels;
       Value := fun values => int_value (MessagesDropped (Result (metrics values))) |};
    {| Type_ := GaugeValue;
       Desc := NewDesc (BuildFQName namespace "metric" "packets_pubrec_sent")
                 "The amount of packets pubrec sent"
                 defaultLabels;
       Value := fun values => int_value (PacketsPubrecSent (Result (metrics values))) |};
    {| Type_ := GaugeValue;
       Desc := NewDesc (BuildFQName namespace "metric" "messages_retained")
                 "The amount of messages retained"
                 defaultLabels;
       Value := fun values => int_value (MessagesRetained (Result (metrics values))) |};
    {| Type_ := GaugeValue;
       Desc := NewDesc (BuildFQName namespace "metric" "packets_publish_received")
                 "The amount of packets publish received"
                 defaultLabels;
       Value := fun values => int_value (PacketsPublishReceived (Result (metrics values))) |};
    {| Type_ := GaugeValue;
       Desc := NewDesc (BuildFQName namespace "metric" "packets_pubcomp_sent")
                 "The amount of packets pubcomp sent"
                 defaultLabels;
       Value := fun values => int_value (PacketsPubcompSent (Result (metrics values))) |};
    {| Type_ := GaugeValue;
       Desc := NewDesc (BuildFQName namespace "metric" "packets_connect")
                 "The amount of packets connect"
                 defaultLabels;
       Value := fun values => int_value (PacketsConnect (Result (metrics values))) |};
    {| Type_ := GaugeValue;
       Desc := NewDesc (BuildFQName namespace "metric" "packets_puback_received")
                 "The amount of packets puback received"
                 defaultLabels;
       Value := fun values => int_value (PacketsPubackReceived (Result (metrics values))) |};
    {| Type_ := GaugeValue;
       Desc := NewDesc (BuildFQName namespace "metric" "messages_sent")
                 "The amount of messages sent"
                 defaultLabels;
       Value := fun values => int_value (MessagesSent (Result (metrics values))) |};
    {| Type_ := GaugeValue;
       Desc := NewDesc (BuildFQName namespace "metric" "packets_publish_sent")
                 "The amount of packets publish sent"
                 defaultLabels;
       Value := fun values => int_value (PacketsPublishSent (Result (metrics values))) |};
    {| Type_ := GaugeValue;
       Desc := NewDesc (BuildFQName namespace "metric" "bytes_sent")
                 "The amount of bytes sent"
                 defaultLabels;
       Value := fun values => int_value (BytesSent (Result (metrics values))) |};
    {| Type_ := GaugeValue;
       Desc := NewDesc (BuildFQName namespace "metric" "packets_puback_sent")
                 "The amount of packets puback sent"
                 defaultLabels;
       Value := fun values => int_value (PacketsPubackSent (Result (metrics values))) |};
    {| Type_ := GaugeValue;
       Desc := NewDesc (BuildFQName namespace "metric" "messages_qos2_dropped")
                 "The amount of QOS2 messages dropped"
                 defaultLabels;
       Value := fun values => int_value (MessagesQos2Dropped (Result (metrics values))) |};
    {| Type_ := GaugeValue;
       Desc := NewDesc (BuildFQName namespace "metric" "packets_pubrel_sent")
                 "The amount of packets pubrel sent"
                 defaultLabels;
       Value := fun values => int_value (PacketsPubrelSent (Result (metrics values))) |};
    {| Type_ := GaugeValue;
       Desc := NewDesc (BuildFQName namespace "metric" "messages_qos1_sent")
                 "The amount of QOS1 messages sent"
                 defaultLabels;
       Value := fun values => int_value (MessagesQos1Sent (Result (metrics values))) |};
    {| Type_ := GaugeValue;
       Desc := NewDesc (BuildFQName namespace "metric" "packets_pubrel_received")
                 "The amount of packets pubrel received"
                 defaultLabels;
       Value := fun values => int_value (PacketsPubrelReceived (Result (metrics values))) |};
    {| Type_ := GaugeValue;
       Desc := NewDesc (BuildFQName namespace "metric" "messages_qos1_received")
                 "The amount of QOS1 messages received"
                 defaultLabels;
       Value := fun values => int_value (MessagesQos1Received (Result (metrics values))) |};
    {| Type_ := GaugeValue;
       Desc := NewDesc (BuildFQName namespace "metric" "messages_qos0_sent")
                 "The amount of QOS0 messages sent"
                 defaultLabels;
       Value := fun values => int_value (MessagesQos0Sent (Result (metrics values))) |};
    {| Type_ := GaugeValue;
       Desc := NewDesc (BuildFQName namespace "metric" "packets_received")
                 "The amount of packets received"
                 defaultLabels;
       Value := fun values => int_value (PacketsReceived (Result (metrics values))) |};
    {| Type_ := GaugeValue;
       Desc := NewDesc (BuildFQName namespace "metric" "packets_pubrec_received")
                 "The amount of packets pubrec received"
                 defaultLabels;
       Value := fun values => int_value (PacketsPubrecReceived (Result (metrics values))) |};
    {| Type_ := GaugeValue;
       Desc := NewDesc (BuildFQName namespace "metric" "packets_pubcomp_missed")
                 "The amount of packets pubcomp missed"
                 defaultLabels;
       Value := fun values => int_value (PacketsPubcompMissed (Result (metrics values))) |};
    {| Type_ := GaugeValue;
       Desc := NewDesc (BuildFQName namespace "metric" "packets_puback_missed")
                 "The amount of packets puback missed"
                 defaultLabels;
       Value := fun values => int_value (PacketsPubackMissed (Result (metrics values))) |};
    {| Type_ := GaugeValue;
       Desc := NewDesc (BuildFQName namespace "stats" "clients")
                 "The amount of clients using in the EMQ node."
                 defaultLabels;
       Value := fun values => int_value (ClientsCount (Result (stats values))) |};
    {| Type_ := GaugeValue;
       Desc := NewDesc (BuildFQName namespace "stats" "retained")
                 "The amount of retained messages in the EMQ node."
                 defaultLabels;
       Value := fun values => int_value (RetainedCount (Result (stats values))) |};
    {| Type_ := GaugeValue;
       Desc := NewDesc (BuildFQName namespace "stats" "routes")
                 "The amount of routes in use by the EMQ node."
                 defaultLabels;
       Value := fun values => int_value (RoutesCount (Result (stats values))) |};
    {| Type_ := GaugeValue;
       Desc := NewDesc (BuildFQName namespace "stats" "sessions")
                 "The amount of sessions in use by the EMQ node."
                 defaultLabels;
       Value := fun values => int_value (SessionsCount (Result (stats values))) |};
    {| Type_ := GaugeValue;
       Desc := NewDesc (BuildFQName namespace "stats" "subscribers")
                 "The amount of subscribers using the EMQ node."
                 defaultLabels;
       Value := fun values => int_value (SubscribersCount (Result (stats values))) |};
    {| Type_ := GaugeValue;
       Desc := NewDesc (BuildFQName namespace "stats" "subscriptions")
                 "The amount of subscriptions in use by the EMQ node."
                 defaultLabels;
       Value := fun values => int_value (SubscribersCount (Result (stats values))) |};
    {| Type_ := GaugeValue;
       Desc := NewDesc (BuildFQName namespace "stats" "topics")
                 "The amount of topics being used in the EMQ node."
                 defaultLabels;
       Value := fun values => int_value (TopicsCount (Result (stats values))) |}
  ].

End Build.

End Registry.

(* ------------------------------------------------------------------ *)
(** ** The collector: broker client and collection cycle *)

Module Client.
Import Memory Schema Registry.
Local Open Scope string_scope.

(** [url.URL], restricted to the fields the collector touches. *)
Record URL : Type := mk_URL {
  Scheme : string;
  Host : string;
  Path : string
}.

(** [u.String()] for an absolute URL with a rooted path, no query. *)
Definition url_String (u : URL) : string := Scheme u ++ "://" ++ Host u ++ Path u.

(** The request handed to [c.client.Do] after [req.SetBasicAuth]. *)
Record request : Type := mk_request {
  req_url : string;
  req_username : string;
  req_password : string
}.

(** What [c.client.Do(req)] can give back. *)
Inductive http_result : Type :=
  | TransportFailure
  | HTTPResponse (StatusCode : Z) (Body : string).

(** The three ways a fetch operation fails. *)
Inductive fetch_error : Type :=
  | TransportError
  | HTTPStatusError (code : Z)
  | DecodeError.

(** [type Collector struct]. The [url] field is a [**url.URL]: the
    [url.URL] object it leads to is a heap cell, [url_cell] of [World]. *)
Record Collector : Type := mk_Collector {
  node : string;
  password : string;
  username : string;
  up : float;
  totalScrapes : nat;
  jsonParseFailures : nat;
  metrics : list metric
}.

Record World : Type := mk_World {
  coll : Collector;
  url_cell : URL;         (* the [url.URL] reached through [c.url] *)
  log : list string       (* lines written by [log.Error] *)
}.

Definition set_url_path (p : string) (w : World) : World :=
  let u := url_cell w in
  mk_World (coll w) (mk_URL (Scheme u) (Host u) p) (log w).

Definition log_Error (msg : string) (w : World) : World :=
  mk_World (coll w) (url_cell w) (log w ++ [msg]).

Definition map_coll (f : Collector -> Collector) (w : World) : World :=
  mk_World (f (coll w)) (url_cell w) (log w).

Definition set_up (v : float) (c : Collector) : Collector :=
  mk_Collector (node c) (password c) (username c) v
    (totalScrapes c) (jsonParseFailures c) (metrics c).

(** [c.totalScrapes.Inc()] *)
Definition inc_totalScrapes (c : Collector) : Collector :=
  mk_Collector (node c) (password c) (username c) (up c)
    (S (totalScrapes c)) (jsonParseFailures c) (metrics c).

(** [c.jsonParseFailures.Inc()] *)
Definition inc_jsonParseFailures (c : Collector) : Collector :=
  mk_Collector (node c) (password c) (username c) (up c)
    (totalScrapes c) (S (jsonParseFailures c)) (metrics c).

(** [NewEMQCollector(client, url, node, username, password)]: counters
    start at zero, the gauge at zero. *)
Definition NewEMQCollector (ParseFloat : string -> float * option parse_error)
    (node username password : string) : Collector :=
  mk_Collector node password username 0%float O O (registry ParseFloat).

(** The fixed paths of the four endpoints. *)
Definition nodes_path (c : Collector) : string := "/api/v2/monitoring/nodes/" ++ node c.
Definition metrics_path (c : Collector) : string := "/api/v2/monitoring/metrics/" ++ node c.
Definition stats_path (c : Collector) : string := "/api/v2/monitoring/stats/" ++ node c.
Definition management_path (c : Collector) : string := "/api/v2/management/nodes".

(** A sample handed to the channel [ch]. *)
Inductive sample : Type :=
  | SConst (d : prometheus_Desc) (t : ValueType) (v : float) (labelValues : list string)
  | SUp (v : float)
  | STotalScrapes (n : nat)
  | SJsonParseFailures (n : nat).

(** The deferred [ch <- c.up; ch <- c.totalScrapes; ch <- c.jsonParseFailures]. *)
Definition meta_samples (c : Collector) : list sample :=
  [SUp (up c); STotalScrapes (totalScrapes c); SJsonParseFailures (jsonParseFailures c)].

Section Cycle.

(** The environment: the HTTP transport and [json.Decoder.Decode] for
    each payload type. *)
Variable Do : request -> http_result.
Variable decode_nodes : string -> option nodesResponse.
Variable decode_metrics : string -> option metricsResponse.
Variable decode_stats : string -> option statsResponse.
Variable decode_management : string -> option managementResponse.

(** [http.NewRequest("GET", u.String(), nil); req.SetBasicAuth(...)]:
    the URL is read from the shared cell when the request is built. *)
Definition build_request (w : World) : request :=
  mk_request (url_String (url_cell w)) (username (coll w)) (password (coll w)).

(** Second half of every [fetchAndDecode*]: build the request from the
    shared [url.URL], send it, check the status, decode the body. *)
Definition send_and_decode {T} (decode : string -> option T) (w : World)
    : World * (T + fetch_error) :=
  match Do (build_request w) with
  | TransportFailure => (w, inr TransportError)
  | HTTPResponse code body =>
      if negb (Z.eqb code 200) then (w, inr (HTTPStatusError code))
      else match decode body with
           | None => (map_coll inc_jsonParseFailures w, inr DecodeError)
           | Some v => (w, inl v)
           end
  end.

(** [u := *c.url; u.Path = path; ...]: [*c.url] is the [*url.URL] itself,
    so the write goes to the shared cell. *)
Definition fetch {T} (path : Collector -> string) (decode : string -> option T)
    (w : World) : World * (T + fetch_error) :=
  send_and_decode decode (set_url_path (path (coll w)) w).

Definition fetchAndDecodeNodes := fetch nodes_path decode_nodes.
Definition fetchAndDecodeMetrics := fetch metrics_path decode_metrics.
Definition fetchAndDecodeStats := fetch stats_path decode_stats.
Definition fetchAndDecodeManagment := fetch management_path decode_management.

(** The text [log.Error(err)] writes for a fetch error (abridged). *)
Definition error_string (e : fetch_error) : string :=
  match e with
  | TransportError => "failed to get response"
  | HTTPStatusError _ => "HTTP Request failed with code"
  | DecodeError => "invalid JSON"
  end.

(** [c.up.Set(0); log.Error(err); return] *)
Definition fail_cycle (e : fetch_error) (w : World) : World :=
  log_Error (error_string e) (map_coll (set_up 0%float) w).

(** The [for _, metric := range c.metrics] loop of [Collect]. Each step
    runs [metric.Value(values)] (which may panic, ending the loop) and
    [prometheus.MustNewConstMetric], which panics when the number of label
    values differs from the number of variable labels of the [Desc]. *)
Fixpoint emit_metrics (ms : list metric) (values : combinedResponse)
    (labelValues : list string) (w : World) : World * list sample * bool :=
  match ms with
  | [] => (w, [], false)
  | m :: ms' =>
      match Value m values with
      | VPanic => (w, [], true)
      | VOk v logged =>
          let w1 := if logged then log_Error "error converting string into number" w else w in
          if Nat.eqb (length labelValues) (length (variableLabels (Desc m))) then
            let '(w2, out, panicked) := emit_metrics ms' values labelValues w1 in
            (w2, SConst (Desc m) (Type_ m) v labelValues :: out, panicked)
          else (w1, [], true)
      end
  end.

(** The [for _, v := range management.Result { if v.Name == c.node {
    managementData = v } }] loop. *)
Definition find_management (node_name : string) (l : list ManagementResponseResult)
    : ManagementResponseResult :=
  fold_left (fun acc v => if String.eqb (Name v) node_name then v else acc)
    l zero_ManagementResponseResult.

(** [Collect]: the new world, the samples sent on [ch] in order, and
    whether the call panicked. The deferred sends of the three meta series
    run on every exit, a panic included. *)
Definition Collect (w : World) : World * list sample * bool :=
  let w0 := map_coll inc_totalScrapes w in
  let finish (w' : World) (out : list sample) (panicked : bool) :=
    (w', app out (meta_samples (coll w')), panicked) in
  match fetchAndDecodeNodes w0 with
  | (w1, inr e) => let w' := fail_cycle e w1 in finish w' [] false
  | (w1, inl nodes) =>
  match fetchAndDecodeMetrics w1 with
  | (w2, inr e) => let w' := fail_cycle e w2 in finish w' [] false
  | (w2, inl metrics) =>
  match fetchAndDecodeStats w2 with
  | (w3, inr e) => let w' := fail_cycle e w3 in finish w' [] false
  | (w3, inl stats) =>
  match fetchAndDecodeManagment w3 with
  | (w4, inr e) => let w' := fail_cycle e w4 in finish w' [] false
  | (w4, inl management) =>
      let ClusterSize := Z.of_nat (length (Result management)) in
      let managementData := find_management (node (coll w4)) (Result management) in
      let values := mk_combinedResponse nodes metrics stats ClusterSize in
      let w5 := map_coll (set_up (if Z.eqb (Code (Schema.nodes values)) 0 then 1%float else 0%float)) w4 in
      let '(w6, out, panicked) :=
        emit_metrics (Client.metrics (coll w5)) values
          [NodeName (Result (Schema.nodes values)); Release (Result (Schema.nodes values));
           Version managementData] w5 in
      finish w6 out panicked
  end end end end.

(** [Describe]: one [Desc] per metric, then the three meta series. *)
Definition Describe (w : World) : list prometheus_Desc :=
  app (map Desc (Client.metrics (coll w)))
  [NewDesc (BuildFQName namespace "node" "up") "Was the last scrape of the EMQ node successful." [];
   NewDesc (BuildFQName namespace "node" "total_scrapes") "Current total scrapes." [];
   NewDesc (BuildFQName namespace "node" "json_parse_failures") "Number of errors while parsing JSON." []].

(** The operations a process can run on the collector. A panic in
    [Collect] ends the process: nothing runs after it. *)
Inductive op : Type :=
  | OpCollect
  | OpDescribe
  | OpFetchNodes
  | OpFetchMetrics
  | OpFetchStats
  | OpFetchManagment.

Definition exec (o : op) (w : World) : World * bool :=
  match o with
  | OpCollect => let '(w', _, panicked) := Collect w in (w', panicked)
  | OpDescribe => (w, false)
  | OpFetchNodes => (fst (fetchAndDecodeNodes w), false)
  | OpFetchMetrics => (fst (fetchAndDecodeMetrics w), false)
  | OpFetchStats => (fst (fetchAndDecodeStats w), false)
  | OpFetchManagment => (fst (fetchAndDecodeManagment w), false)
  end.

Fixpoint run (ops : list op) (w : World) : World :=
  match ops with
  | [] => w
  | o :: ops' => let '(w', crashed) := exec o w in if crashed then w' else run ops' w'
  end.

End Cycle.

End Client.

(* ------------------------------------------------------------------ *)
(** ** A concrete deployment, used to evaluate the model *)

Module Scenario.
Import Memory Schema Registry Client.
Local Open Scope string_scope.

(** The defaults of main.go: [--emq.uri http://127.0.0.1:8080],
    [--emq.node emq@127.0.0.1], [admin]/[public]. *)
Definition base_url : URL := mk_URL "http" "127.0.0.1:8080" "".
Definition collector : Collector :=
  NewEMQCollector ParseFloat_exact "emq@127.0.0.1" "admin" "public".
Definition world0 : World := mk_World collector base_url [].

(** A broker that answers every request with status 200. *)
Definition Do_ok (_ : request) : http_result := HTTPResponse 200 "{}".

Definition nodes_payload (memory_total : string) : nodesResponse :=
  mk_response
    (mk_nodesResponseResult "emq@127.0.0.1" "R19/8.3" "Running" memory_total
       "64.2M" 1048576 312 65536 2 "0.10" "0.20" "0.30") 0.
Definition metrics_payload : metricsResponse := mk_response zero_metricsResponseResult 0.
Definition stats_payload : statsResponse := mk_response zero_statsResponseResult 0.

Definition member (name version : string) : ManagementResponseResult :=
  mk_ManagementResponseResult name version "EMQ" "1 days" "2018-01-01" "R19/8.3" "Running".
Definition management_payload (l : list ManagementResponseResult) : managementResponse :=
  mk_response l 0.

(** One [Collect] against that broker, with the given node memory string
    and membership list. *)
Definition collect_with (memory_total : string) (l : list ManagementResponseResult)
    : World * list sample * bool :=
  Collect Do_ok (fun _ => Some (nodes_payload memory_total))
    (fun _ => Some metrics_payload) (fun _ => Some stats_payload)
    (fun _ => Some (management_payload l)) world0.

Definition is_const (s : sample) : bool :=
  match s with SConst _ _ _ _ => true | _ => false end.

Definition decode_nodes_ok (memory_total : string) (_ : string) : option nodesResponse :=
  Some (nodes_payload memory_total).
Definition decode_metrics_ok (_ : string) : option metricsResponse := Some metrics_payload.
Definition decode_stats_ok (_ : string) : option statsResponse := Some stats_payload.
Definition decode_management_ok (l : list ManagementResponseResult) (_ : string)
    : option managementResponse := Some (management_payload l).

(** The [version] label of a per-metric sample. *)
Definition version_label (s : sample) : string :=
  match s with SConst _ _ _ l => nth 2 l "" | _ => "" end.

(** A broker that routes by URL, and a strict node-status decoder: what a
    fetch receives depends on the path it asked for. *)
Definition nodes_url : string :=
  "http://127.0.0.1:8080/api/v2/monitoring/nodes/emq@127.0.0.1".
Definition Do_route (req : request) : http_result :=
  if String.eqb (req_url req) nodes_url then HTTPResponse 200 "nodes-json"
  else HTTPResponse 200 "other-json".
Definition decode_nodes_strict (body : string) : option nodesResponse :=
  if String.eqb body "nodes-json" then Some (nodes_payload "512.25M") else None.

(** Boolean duplicate check on a list of names. *)
Fixpoint nodupb (l : list string) : bool :=
  match l with
  | [] => true
  | x :: l' => negb (existsb (String.eqb x) l') && nodupb l'
  end.

(** Two worlds with the same configuration: node, credentials, registry,
    scheme and host of the base address. They may differ in the counters,
    the health gauge, the log and the path left in the shared URL. *)
Definition same_config (w w' : World) : Prop :=
  node (coll w) = node (coll w') /\ username (coll w) = username (coll w') /\
  password (coll w) = password (coll w') /\
  Client.metrics (coll w) = Client.metrics (coll w') /\
  Scheme (url_cell w) = Scheme (url_cell w') /\ Host (url_cell w) = Host (url_cell w').

End Scenario.

(* ================================================================== *)
(** * Proofs *)

(** ** [validID] matches the first maximal run of digits with an
    optional embedded decimal point *)

Module RegexpFacts.
Import Regexp.

Lemma take_drop (p : ascii -> bool) (s : list ascii) :
  take_while p s ++ drop_while p s = s.
Proof.
  induction s as [|c s IH]; simpl; [reflexivity|].
  destruct (p c); simpl; [now rewrite IH | reflexivity].
Qed.

Lemma skipn_take_while (p : ascii -> bool) (s : list ascii) :
  skipn (length (take_while p s)) s = drop_while p s.
Proof.
  induction s as [|c s IH]; simpl; [reflexivity|].
  destruct (p c); simpl; [exact IH | reflexivity].
Qed.

Lemma drop_while_head (p : ascii -> bool) (s : list ascii) :
  match drop_while p s with c :: _ => p c = false | [] => True end.
Proof.
  induction s as [|c s IH]; simpl; [exact I|].
  case_eq (p c); intro Hc; [exact IH | exact Hc].
Qed.

Lemma skipn_inside (p : ascii -> bool) (s : list ascii) (i : nat) :
  (i < length (take_while p s))%nat ->
  exists c t, skipn i s = c :: t /\ p c = true.
Proof.
  revert i; induction s as [|c s IH]; intros i Hi; simpl in Hi; [lia|].
  case_eq (p c); intro Hc; rewrite Hc in Hi; simpl in Hi; [|lia].
  destruct i as [|i]; simpl.
  - now exists c, s.
  - apply IH; lia.
Qed.

Lemma try_down_none {A} (n : nat) (f : nat -> option A) :
  (forall i, (0 < i <= n)%nat -> f i = None) -> try_down n f = None.
Proof.
  induction n as [|n IH]; intro H; simpl; [reflexivity|].
  rewrite (H (S n)) by lia. apply IH. intros i Hi. apply H. lia.
Qed.

Lemma try_down_top {A} (n : nat) (f : nat -> option A) :
  (0 < n)%nat -> (forall i, (0 < i < n)%nat -> f i = None) -> try_down n f = f n.
Proof.
  intros Hn H. destruct n as [|n]; [lia|]. simpl.
  destruct (f (S n)); [reflexivity|].
  apply try_down_none. intros i Hi. apply H. lia.
Qed.

Lemma plus_accept (p : ascii -> bool) (t : list ascii) :
  bt (RPlus p) t Some =
  match take_while p t with [] => None | _ => Some (drop_while p t) end.
Proof.
  simpl. destruct (take_while p t) eqn:E; simpl; [reflexivity|].
  rewrite <- skipn_take_while, E. reflexivity.
Qed.

Lemma digit_not_dot (c : ascii) : is_digit c = true -> is_dot c = false.
Proof.
  intro H. unfold is_dot. destruct (Ascii.eqb c "."%char) eqn:E; [|reflexivity].
  apply Ascii.eqb_eq in E. subst c. discriminate H.
Qed.

Lemma take_while_nil_head (p : ascii -> bool) (c : ascii) (s : list ascii) :
  p c = true -> take_while p (c :: s) <> [].
Proof. intro H. simpl. rewrite H. discriminate. Qed.

Lemma take_while_head_false (p : ascii -> bool) (c : ascii) (s : list ascii) :
  p c = false -> take_while p (c :: s) = [].
Proof. intro H. simpl. now rewrite H. Qed.

Lemma bt_class_cons (p : ascii -> bool) (c : ascii) (r : list ascii) k :
  bt (RClass p) (c :: r) k = if p c then k r else None.
Proof. reflexivity. Qed.

(** Anchored behaviour of [validID]: it matches exactly at a digit, and
    consumes the spec's run. *)
Lemma bt_validID (s : list ascii) :
  match s with
  | c :: _ =>
      if is_digit c
      then exists rest, s = run_at_spec s ++ rest /\ bt validID s Some = Some rest
      else bt validID s Some = None
  | [] => bt validID s Some = None
  end.
Proof.
  destruct s as [|c0 s0]; [reflexivity|].
  set (s := c0 :: s0).
  assert (Halt : bt validID s Some =
    match bt (RSeq (RPlus is_digit) (RSeq (RClass is_dot) (RPlus is_digit))) s Some with
    | Some x => Some x | None => bt (RPlus is_digit) s Some end) by reflexivity.
  assert (Hseq : bt (RSeq (RPlus is_digit) (RSeq (RClass is_dot) (RPlus is_digit))) s Some =
    try_down (length (take_while is_digit s))
      (fun i => bt (RClass is_dot) (skipn i s) (fun s' => bt (RPlus is_digit) s' Some)))
    by reflexivity.
  case_eq (is_digit c0); intro Hc0.
  - assert (Hne : take_while is_digit s <> []) by (apply take_while_nil_head; exact Hc0).
    assert (Hlen : (0 < length (take_while is_digit s))%nat)
      by (destruct (take_while is_digit s); [congruence | simpl; lia]).
    rewrite Hseq in Halt.
    rewrite try_down_top in Halt by
      (exact Hlen || (intros i Hi; destruct (skipn_inside is_digit s i ltac:(lia)) as (c & t & Ht & Hd);
        rewrite Ht; simpl; rewrite (digit_not_dot c Hd); reflexivity)).
    rewrite skipn_take_while in Halt.
    rewrite (plus_accept is_digit s) in Halt.
    destruct (take_while is_digit s) as [|d l] eqn:Ed; [congruence|].
    pose proof (take_drop is_digit s) as Hsplit. rewrite Ed in Hsplit.
    unfold run_at_spec. rewrite Ed.
    destruct (drop_while is_digit s) as [|c r] eqn:Er.
    + exists []. rewrite app_nil_r. split; [now rewrite app_nil_r in Hsplit | exact Halt].
    + rewrite bt_class_cons in Halt.
      destruct (is_dot c) eqn:Edot.
      * rewrite plus_accept in Halt.
        pose proof (take_drop is_digit r) as Hr.
        destruct (take_while is_digit r) as [|d2 l2] eqn:E2.
        -- exists (c :: r). split; [now symmetry | exact Halt].
        -- exists (drop_while is_digit r). split; [|exact Halt].
           rewrite <- Hsplit at 1. rewrite <- Hr at 1.
           rewrite <- !app_assoc. reflexivity.
      * exists (c :: r). split; [now symmetry | exact Halt].
  - rewrite Halt, Hseq, plus_accept.
    assert (E : take_while is_digit s = []) by (apply take_while_head_false; exact Hc0).
    rewrite E. reflexivity.
Qed.

Lemma firstn_prefix (m rest : list ascii) :
  firstn (length (m ++ rest) - length rest) (m ++ rest) = m.
Proof.
  rewrite length_app. replace (length m + length rest - length rest)%nat with (length m) by lia.
  rewrite firstn_app, Nat.sub_diag, firstn_all. simpl. apply app_nil_r.
Qed.

(** [find_first validID] refines the spec's "first maximal run". *)
Lemma find_first_validID (s : list ascii) :
  match find_first validID s with
  | Some (m, _) => first_run_spec s = Some m
  | None => first_run_spec s = None
  end.
Proof.
  induction s as [|c s IH].
  - reflexivity.
  - pose proof (bt_validID (c :: s)) as H. cbv beta iota in H.
    change (find_first validID (c :: s)) with
      (match match_here validID (c :: s) with
       | Some m => Some m | None => find_first validID s end).
    change (first_run_spec (c :: s)) with
      (if is_digit c then Some (run_at_spec (c :: s)) else first_run_spec s).
    unfold match_here.
    destruct (is_digit c) eqn:Ec.
    + destruct H as (rest & Hs & Hbt). rewrite Hbt.
      set (m := run_at_spec (c :: s)) in *. rewrite Hs at 1 2. rewrite firstn_prefix. reflexivity.
    + rewrite H. exact IH.
Qed.

Lemma FindAllString_head (s : string) :
  match FindAllString validID s with
  | [] => first_run_spec (list_ascii_of_string s) = None
  | m :: _ => exists l, first_run_spec (list_ascii_of_string s) = Some l /\
                        m = string_of_list_ascii l
  end.
Proof.
  unfold FindAllString. pose proof (find_first_validID (list_ascii_of_string s)) as H.
  simpl. destruct (find_first validID (list_ascii_of_string s)) as [[m rest]|]; simpl.
  - now exists m.
  - exact H.
Qed.

End RegexpFacts.

(** ** The memory-field extraction *)

Module MemoryFacts.
Import Regexp Memory RegexpFacts.
Local Open Scope string_scope.

(** [memory_value] in terms of the spec's run. *)
Lemma memory_value_spec (ParseFloat : string -> float * option parse_error) (s : string) :
  memory_value ParseFloat s =
  match first_run_spec (list_ascii_of_string s) with
  | None => VPanic
  | Some l =>
      let (i, err) := ParseFloat (string_of_list_ascii l) in
      VOk (i * 1000000)%float (match err with Some _ => true | None => false end)
  end.
Proof.
  unfold memory_value. pose proof (FindAllString_head s) as H.
  destruct (FindAllString validID s) as [|m rest].
  - now rewrite H.
  - destruct H as (l & Hl & ->). now rewrite Hl.
Qed.

(** A field with no digit at all makes [str[0]] index an empty slice. *)
Lemma memory_value_no_run (ParseFloat : string -> float * option parse_error) (s : string) :
  first_run_spec (list_ascii_of_string s) = None -> memory_value ParseFloat s = VPanic.
Proof. intro H. rewrite memory_value_spec, H. reflexivity. Qed.

(** C7: when the field holds a run of digits, the extraction parses the
    first maximal run of digits with an optional embedded decimal point
    ([first_run_spec]) and multiplies the float by 1,000,000; with
    [strconv.ParseFloat] exact on short decimals, ["128.5MB"] gives
    [128500000.0]. *)
Theorem memory_value_first_run_scaled
    (ParseFloat : string -> float * option parse_error)
    (Hexact : forall m mant e, decimal_parts m = Some (mant, e) ->
       0 <= mant < 2 ^ 53 -> (e <= 22)%nat ->
       ParseFloat m = ((float_of_Z mant / float_of_Z (10 ^ Z.of_nat e))%float, None)) :
  (forall s l, first_run_spec (list_ascii_of_string s) = Some l ->
     exists logged, memory_value ParseFloat s =
       VOk (fst (ParseFloat (string_of_list_ascii l)) * 1000000)%float logged) /\
  memory_value ParseFloat "128.5MB" = VOk 128500000%float false.
Proof.
  split.
  - intros s l Hl. rewrite memory_value_spec, Hl.
    destruct (ParseFloat (string_of_list_ascii l)) as [i err]. simpl.
    eexists. reflexivity.
  - rewrite memory_value_spec.
    change (first_run_spec (list_ascii_of_string "128.5MB"))
      with (Some (list_ascii_of_string "128.5")).
    cbv beta iota.
    change (string_of_list_ascii (list_ascii_of_string "128.5")) with "128.5".
    rewrite (Hexact "128.5" 1285 1%nat) by (reflexivity || lia).
    vm_compute. reflexivity.
Qed.

(** The witness: Go's exact path, at ["128.5MB"]. *)
Lemma memory_value_first_run_scaled_witness :
  (forall m mant e, decimal_parts m = Some (mant, e) ->
     0 <= mant < 2 ^ 53 -> (e <= 22)%nat ->
     ParseFloat_exact m = ((float_of_Z mant / float_of_Z (10 ^ Z.of_nat e))%float, None)) /\
  memory_value ParseFloat_exact "128.5MB" = VOk 128500000%float false.
Proof.
  assert (H : forall m mant e, decimal_parts m = Some (mant, e) ->
     0 <= mant < 2 ^ 53 -> (e <= 22)%nat ->
     ParseFloat_exact m = ((float_of_Z mant / float_of_Z (10 ^ Z.of_nat e))%float, None))
    by (intros m mant e Hd _ _; unfold ParseFloat_exact; rewrite Hd; reflexivity).
  split; [exact H | apply (memory_value_first_run_scaled ParseFloat_exact H)].
Defined.

End MemoryFacts.

(** ** The broker client and the collection cycle *)

Module CollectFacts.
Import Regexp Memory Schema Registry Client Scenario MemoryFacts.
Local Open Scope string_scope.

Section Env.
Variable Do : request -> http_result.
Variable decode_nodes : string -> option nodesResponse.
Variable decode_metrics : string -> option metricsResponse.
Variable decode_stats : string -> option statsResponse.
Variable decode_management : string -> option managementResponse.

(** A fetch touches the collector only through [jsonParseFailures]. *)
Lemma fetch_frame {T} (path : Collector -> string) (decode : string -> option T)
    (w w' : World) (r : T + fetch_error) :
  fetch Do path decode w = (w', r) ->
  node (coll w') = node (coll w) /\ username (coll w') = username (coll w) /\
  password (coll w') = password (coll w) /\ up (coll w') = up (coll w) /\
  totalScrapes (coll w') = totalScrapes (coll w) /\
  Client.metrics (coll w') = Client.metrics (coll w).
Proof.
  unfold fetch, send_and_decode.
  destruct (Do _) as [|code body]; [intro H; inversion H; subst; simpl; tauto|].
  destruct (negb (Z.eqb code 200)); [intro H; inversion H; subst; simpl; tauto|].
  destruct (decode body); intro H; inversion H; subst; simpl; tauto.
Qed.

Lemma fail_cycle_coll (e : fetch_error) (w : World) :
  coll (fail_cycle e w) = set_up 0%float (coll w).
Proof. reflexivity. Qed.

Lemma emit_metrics_coll (ms : list metric) (values : combinedResponse)
    (labels : list string) (w : World) :
  coll (fst (fst (emit_metrics ms values labels w))) = coll w.
Proof.
  revert w; induction ms as [|m ms IH]; intro w; simpl; [reflexivity|].
  destruct (Value m values) as [v logged|]; [|reflexivity].
  set (w1 := if logged then log_Error "error converting string into number" w else w).
  assert (Hw1 : coll w1 = coll w) by (unfold w1; destruct logged; reflexivity).
  destruct (Nat.eqb _ _); [|exact Hw1].
  specialize (IH w1). destruct (emit_metrics ms values labels w1) as [[w2 out] p].
  simpl in *. congruence.
Qed.

(** Every sample the loop emits is a constant metric with the given
    label values; without a panic there is one per metric. *)
Lemma emit_metrics_out (ms : list metric) (values : combinedResponse)
    (labels : list string) (w : World) :
  let '(_, out, panicked) := emit_metrics ms values labels w in
  (forall s, In s out -> exists d t v, s = SConst d t v labels) /\
  (panicked = false -> length out = length ms).
Proof.
  revert w; induction ms as [|m ms IH]; intro w; simpl.
  - split; [intros s [] | reflexivity].
  - destruct (Value m values) as [v logged|]; [|split; [intros s [] | discriminate]].
    destruct (Nat.eqb _ _); [|split; [intros s [] | discriminate]].
    specialize (IH (if logged then log_Error "error converting string into number" w else w)).
    destruct (emit_metrics ms values labels _) as [[w2 out] p].
    destruct IH as [IH1 IH2]. split.
    + intros s [<-|Hs]; [now exists (Desc m), (Type_ m), v | exact (IH1 s Hs)].
    + intro Hp. simpl. now rewrite IH2.
Qed.

Ltac use_frames :=
  repeat match goal with
  | E : fetch _ _ _ _ = (_, _) |- _ =>
      apply fetch_frame in E; destruct E as (? & ? & ? & ? & ? & ?)
  end.

Ltac collect_cases :=
  unfold Collect, fetchAndDecodeNodes, fetchAndDecodeMetrics,
    fetchAndDecodeStats, fetchAndDecodeManagment; cbv beta zeta;
  destruct (fetch Do nodes_path decode_nodes _) as [? [?|?]] eqn:?;
  [ destruct (fetch Do metrics_path decode_metrics _) as [? [?|?]] eqn:?;
    [ destruct (fetch Do stats_path decode_stats _) as [? [?|?]] eqn:?;
      [ destruct (fetch Do management_path decode_management _) as [? [?|?]] eqn:?
      | ]
    | ]
  | ].

(** The collector fields [Collect] never writes, and the scrape counter. *)
Lemma Collect_frame (w : World) :
  let w' := fst (fst (Collect Do decode_nodes decode_metrics decode_stats decode_management w)) in
  node (coll w') = node (coll w) /\ username (coll w') = username (coll w) /\
  password (coll w') = password (coll w) /\
  totalScrapes (coll w') = S (totalScrapes (coll w)) /\
  Client.metrics (coll w') = Client.metrics (coll w).
Proof.
  cbv zeta. collect_cases; use_frames; simpl in *;
    try (repeat split; congruence).
  match goal with
  | |- context [emit_metrics ?ms ?v ?l ?w5] =>
      pose proof (emit_metrics_coll ms v l w5) as C;
      destruct (emit_metrics ms v l w5) as [[w6 out] p]
  end.
  simpl in *. rewrite C. simpl. repeat split; congruence.
Qed.

Lemma exec_frame (o : op) (w : World) :
  let w' := fst (exec Do decode_nodes decode_metrics decode_stats decode_management o w) in
  Client.metrics (coll w') = Client.metrics (coll w) /\
  totalScrapes (coll w') =
    match o with OpCollect => S (totalScrapes (coll w)) | _ => totalScrapes (coll w) end.
Proof.
  cbv zeta. destruct o; simpl.
  - pose proof (Collect_frame w) as H. simpl in H.
    destruct (Collect _ _ _ _ _ w) as [[w' out] p]. simpl in *. tauto.
  - split; reflexivity.
  - destruct (fetchAndDecodeNodes Do decode_nodes w) as [w' r] eqn:E. simpl.
    apply fetch_frame in E. tauto.
  - destruct (fetchAndDecodeMetrics Do decode_metrics w) as [w' r] eqn:E. simpl.
    apply fetch_frame in E. tauto.
  - destruct (fetchAndDecodeStats Do decode_stats w) as [w' r] eqn:E. simpl.
    apply fetch_frame in E. tauto.
  - destruct (fetchAndDecodeManagment Do decode_management w) as [w' r] eqn:E. simpl.
    apply fetch_frame in E. tauto.
Qed.

Lemma run_frame (ops : list op) (w : World) :
  let w' := run Do decode_nodes decode_metrics decode_stats decode_management ops w in
  Client.metrics (coll w') = Client.metrics (coll w) /\
  (totalScrapes (coll w) <= totalScrapes (coll w'))%nat.
Proof.
  cbv zeta. revert w; induction ops as [|o ops IH]; intro w; simpl; [split; [reflexivity | lia]|].
  pose proof (exec_frame o w) as [Hm Ht]. simpl in Hm, Ht.
  destruct (exec _ _ _ _ _ o w) as [w' crashed]. simpl in *.
  assert (Hle : (totalScrapes (coll w) <= totalScrapes (coll w'))%nat) by (destruct o; lia).
  destruct crashed; [split; [exact Hm | exact Hle]|].
  destruct (IH w') as [IH1 IH2]. split; [congruence | lia].
Qed.

(** C5: for a fetch operation ([fetchAndDecodeNodes], [...Metrics],
    [...Stats] and [...Managment] are [fetch] at their path and decoder):
    a non-200 status gives [HTTPStatusError] and leaves the parse-failure
    counter alone; a 200 whose body does not decode gives [DecodeError]
    and adds exactly 1 to it; every other outcome leaves it alone. *)
Theorem fetch_error_contract {T} (path : Collector -> string)
    (decode : string -> option T) (w : World) :
  let w1 := set_url_path (path (coll w)) w in
  let '(w', r) := fetch Do path decode w in
  match Do (build_request w1) with
  | TransportFailure =>
      r = inr TransportError /\
      jsonParseFailures (coll w') = jsonParseFailures (coll w)
  | HTTPResponse code body =>
      if Z.eqb code 200 then
        match decode body with
        | None => r = inr DecodeError /\
                  jsonParseFailures (coll w') = S (jsonParseFailures (coll w))
        | Some v => r = inl v /\
                    jsonParseFailures (coll w') = jsonParseFailures (coll w)
        end
      else r = inr (HTTPStatusError code) /\
           jsonParseFailures (coll w') = jsonParseFailures (coll w)
  end.
Proof.
  cbv zeta. unfold fetch, send_and_decode.
  destruct (Do _) as [|code body]; [split; reflexivity|].
  destruct (Z.eqb code 200); simpl; [|split; reflexivity].
  destruct (decode body); split; reflexivity.
Qed.

(** C9: each [Collect] adds exactly 1 to [totalScrapes], whatever the
    fetches give; no operation lowers it, over any run. *)
Theorem Collect_increments_totalScrapes :
  (forall w, totalScrapes (coll (fst (fst
     (Collect Do decode_nodes decode_metrics decode_stats decode_management w))))
     = S (totalScrapes (coll w))) /\
  (forall o w, totalScrapes (coll (fst
     (exec Do decode_nodes decode_metrics decode_stats decode_management o w)))
     = match o with OpCollect => S (totalScrapes (coll w)) | _ => totalScrapes (coll w) end) /\
  (forall ops w, (totalScrapes (coll w) <=
     totalScrapes (coll (run Do decode_nodes decode_metrics decode_stats decode_management ops w)))%nat).
Proof.
  split; [|split].
  - intro w. apply (Collect_frame w).
  - intros o w. apply (exec_frame o w).
  - intros ops w. apply (run_frame ops w).
Qed.

Lemma fetch_url_cell {T} (path : Collector -> string) (decode : string -> option T)
    (w : World) :
  url_cell (fst (fetch Do path decode w)) = mk_URL (Scheme (url_cell w)) (Host (url_cell w)) (path (coll w)).
Proof.
  unfold fetch, send_and_decode.
  destruct (Do _) as [|code body]; [reflexivity|].
  destruct (negb (Z.eqb code 200)); [reflexivity|].
  destruct (decode body); reflexivity.
Qed.

(** [Collect] once the four fetches have succeeded. *)
Lemma Collect_success (w w1 w2 w3 w4 : World) (n : nodesResponse) (m : metricsResponse)
    (st : statsResponse) (g : managementResponse)
    (H1 : fetchAndDecodeNodes Do decode_nodes (map_coll inc_totalScrapes w) = (w1, inl n))
    (H2 : fetchAndDecodeMetrics Do decode_metrics w1 = (w2, inl m))
    (H3 : fetchAndDecodeStats Do decode_stats w2 = (w3, inl st))
    (H4 : fetchAndDecodeManagment Do decode_management w3 = (w4, inl g)) :
  Collect Do decode_nodes decode_metrics decode_stats decode_management w =
  let values := mk_combinedResponse n m st (Z.of_nat (length (Result g))) in
  let w5 := map_coll (set_up (if Z.eqb (Code n) 0 then 1%float else 0%float)) w4 in
  let labels := [NodeName (Result n); Release (Result n);
                 Version (find_management (node (coll w4)) (Result g))] in
  let '(w6, out, panicked) := emit_metrics (Client.metrics (coll w5)) values labels w5 in
  (w6, app out (meta_samples (coll w6)), panicked).
Proof.
  unfold Collect. cbv beta zeta. rewrite H1, H2, H3, H4. reflexivity.
Qed.

Lemma Collect_success_node (w w1 w2 w3 w4 : World) (n : nodesResponse) (m : metricsResponse)
    (st : statsResponse) (g : managementResponse)
    (H1 : fetchAndDecodeNodes Do decode_nodes (map_coll inc_totalScrapes w) = (w1, inl n))
    (H2 : fetchAndDecodeMetrics Do decode_metrics w1 = (w2, inl m))
    (H3 : fetchAndDecodeStats Do decode_stats w2 = (w3, inl st))
    (H4 : fetchAndDecodeManagment Do decode_management w3 = (w4, inl g)) :
  node (coll w4) = node (coll w) /\ Client.metrics (coll w4) = Client.metrics (coll w).
Proof.
  unfold fetchAndDecodeNodes, fetchAndDecodeMetrics, fetchAndDecodeStats,
    fetchAndDecodeManagment in *.
  use_frames. simpl in *. split; congruence.
Qed.

(** C6: after four successful fetches the health gauge is 1 exactly when
    the [code] field of the node-status payload is 0, and 0 otherwise; the
    gauge sent on the channel carries that value. *)
Theorem Collect_up_from_code (w w1 w2 w3 w4 : World) (n : nodesResponse)
    (m : metricsResponse) (st : statsResponse) (g : managementResponse)
    (H1 : fetchAndDecodeNodes Do decode_nodes (map_coll inc_totalScrapes w) = (w1, inl n))
    (H2 : fetchAndDecodeMetrics Do decode_metrics w1 = (w2, inl m))
    (H3 : fetchAndDecodeStats Do decode_stats w2 = (w3, inl st))
    (H4 : fetchAndDecodeManagment Do decode_management w3 = (w4, inl g)) :
  let '(w', out, _) := Collect Do decode_nodes decode_metrics decode_stats decode_management w in
  up (coll w') = (if Z.eqb (Code n) 0 then 1%float else 0%float) /\
  In (SUp (if Z.eqb (Code n) 0 then 1%float else 0%float)) out.
Proof.
  rewrite (Collect_success w w1 w2 w3 w4 n m st g H1 H2 H3 H4). cbv zeta.
  match goal with
  | |- context [emit_metrics ?ms ?v ?l ?w5] =>
      pose proof (emit_metrics_coll ms v l w5) as C;
      destruct (emit_metrics ms v l w5) as [[w6 out] p]
  end.
  simpl in C. rewrite C. simpl. split; [reflexivity|].
  apply in_or_app. right. left. reflexivity.
Qed.

Lemma find_management_skip (node_name : string) (l : list ManagementResponseResult)
    (acc : ManagementResponseResult) :
  Forall (fun x => Name x <> node_name) l ->
  fold_left (fun acc v => if String.eqb (Name v) node_name then v else acc) l acc = acc.
Proof.
  revert acc; induction l as [|x l IH]; intros acc Hl; simpl; [reflexivity|].
  inversion Hl as [|? ? Hx Hl']; subst.
  destruct (String.eqb_spec (Name x) node_name); [contradiction|]. now apply IH.
Qed.

(** The membership loop keeps the last record whose name matches. *)
Lemma find_management_last (node_name : string) (l1 l2 : list ManagementResponseResult)
    (v : ManagementResponseResult) :
  Name v = node_name -> Forall (fun x => Name x <> node_name) l2 ->
  find_management node_name (app l1 (v :: l2)) = v.
Proof.
  intros Hv Hl2. unfold find_management. rewrite fold_left_app. simpl.
  rewrite Hv, String.eqb_refl. now apply find_management_skip.
Qed.

Lemma find_management_none (node_name : string) (l : list ManagementResponseResult) :
  Forall (fun x => Name x <> node_name) l ->
  find_management node_name l = zero_ManagementResponseResult.
Proof. apply find_management_skip. Qed.

(** C2, as the code does it: after four successful fetches, every
    per-metric sample carries the version of the LAST membership record
    whose name equals the configured node; with no such record, the
    empty version. *)
Theorem Collect_version_last_match (w w1 w2 w3 w4 : World) (n : nodesResponse)
    (m : metricsResponse) (st : statsResponse) (g : managementResponse)
    (H1 : fetchAndDecodeNodes Do decode_nodes (map_coll inc_totalScrapes w) = (w1, inl n))
    (H2 : fetchAndDecodeMetrics Do decode_metrics w1 = (w2, inl m))
    (H3 : fetchAndDecodeStats Do decode_stats w2 = (w3, inl st))
    (H4 : fetchAndDecodeManagment Do decode_management w3 = (w4, inl g)) :
  let '(_, out, _) := Collect Do decode_nodes decode_metrics decode_stats decode_management w in
  (forall l1 v l2, Result g = app l1 (v :: l2) -> Name v = node (coll w) ->
     Forall (fun x => Name x <> node (coll w)) l2 ->
     forall s, In s out -> is_const s = true ->
       exists d t x, s = SConst d t x [NodeName (Result n); Release (Result n); Version v]) /\
  (Forall (fun x => Name x <> node (coll w)) (Result g) ->
     forall s, In s out -> is_const s = true ->
       exists d t x, s = SConst d t x [NodeName (Result n); Release (Result n); ""]).
Proof.
  pose proof (Collect_success_node w w1 w2 w3 w4 n m st g H1 H2 H3 H4) as [Hnode _].
  rewrite (Collect_success w w1 w2 w3 w4 n m st g H1 H2 H3 H4). cbv zeta.
  match goal with
  | |- context [emit_metrics ?ms ?v ?l ?w5] =>
      pose proof (emit_metrics_out ms v l w5) as Hout;
      destruct (emit_metrics ms v l w5) as [[w6 out] p]
  end.
  destruct Hout as [Hout _]. rewrite Hnode in Hout. cbv beta iota.
  assert (Hin : forall s, In s (app out (meta_samples (coll w6))) -> is_const s = true ->
    exists d t x, s = SConst d t x [NodeName (Result n); Release (Result n);
      Version (find_management (node (coll w)) (Result g))]).
  { intros s Hs Hc. apply in_app_or in Hs. destruct Hs as [Hs|Hs]; [now apply Hout|].
    simpl in Hs. destruct Hs as [<-|[<-|[<-|[]]]]; discriminate Hc. }
  split.
  - intros l1 v l2 Hg Hv Hl2 s Hs Hc.
    rewrite Hg, (find_management_last _ l1 l2 v Hv Hl2) in Hin. exact (Hin s Hs Hc).
  - intros Hnone s Hs Hc.
    rewrite (find_management_none _ _ Hnone) in Hin. exact (Hin s Hs Hc).
Qed.

Lemma emit_metrics_complete (ms : list metric) (values : combinedResponse)
    (labels : list string) (w : World) :
  (forall m, In m ms -> (exists v l, Value m values = VOk v l) /\
                        length labels = length (variableLabels (Desc m))) ->
  let '(_, out, panicked) := emit_metrics ms values labels w in
  panicked = false /\ length out = length ms /\ forallb is_const out = true.
Proof.
  revert w; induction ms as [|m ms IH]; intros w Hms; simpl; [auto|].
  destruct (Hms m (or_introl eq_refl)) as [(v & l & Hv) Hl].
  rewrite Hv, Hl, Nat.eqb_refl.
  specialize (IH (if l then log_Error "error converting string into number" w else w)
    (fun m' Hm' => Hms m' (or_intror Hm'))).
  destruct (emit_metrics ms values labels _) as [[w2 out] p].
  destruct IH as (Hp & Hl' & Hc). subst p. simpl. rewrite Hl'. auto.
Qed.

(** X15: what C4 promises holds when neither memory string lacks digits: with
    the registry of [NewEMQCollector], four successful fetches give all 49
    per-metric samples and the three meta series, and no panic. *)
Lemma Collect_success_all_samples (ParseFloat : string -> float * option parse_error)
    (w w1 w2 w3 w4 : World) (n : nodesResponse) (m : metricsResponse)
    (st : statsResponse) (g : managementResponse)
    (H1 : fetchAndDecodeNodes Do decode_nodes (map_coll inc_totalScrapes w) = (w1, inl n))
    (H2 : fetchAndDecodeMetrics Do decode_metrics w1 = (w2, inl m))
    (H3 : fetchAndDecodeStats Do decode_stats w2 = (w3, inl st))
    (H4 : fetchAndDecodeManagment Do decode_management w3 = (w4, inl g))
    (Hreg : Client.metrics (coll w) = registry ParseFloat)
    (Htotal : first_run_spec (list_ascii_of_string (MemoryTotal (Result n))) <> None)
    (Hused : first_run_spec (list_ascii_of_string (MemoryUsed (Result n))) <> None) :
  let '(_, out, panicked) :=
    Collect Do decode_nodes decode_metrics decode_stats decode_management w in
  panicked = false /\ length (filter is_const out) = 49%nat /\ length out = 52%nat.
Proof.
  pose proof (Collect_success_node w w1 w2 w3 w4 n m st g H1 H2 H3 H4) as [_ Hm].
  rewrite (Collect_success w w1 w2 w3 w4 n m st g H1 H2 H3 H4). cbv zeta.
  simpl Client.metrics. rewrite Hm, Hreg.
  match goal with
  | |- context [emit_metrics ?ms ?v ?l ?w5] =>
      pose proof (emit_metrics_complete ms v l w5) as Hc;
      destruct (emit_metrics ms v l w5) as [[w6 out] p]
  end.
  assert (Hmem : forall f, first_run_spec (list_ascii_of_string f) <> None ->
    exists v l, memory_value ParseFloat f = VOk v l).
  { intros f Hf. rewrite memory_value_spec.
    destruct (first_run_spec (list_ascii_of_string f)); [|congruence].
    destruct (ParseFloat _). eauto. }
  destruct Hc as (Hp & Hlen & Hconst).
  { intros mt Hin. unfold registry in Hin.
    repeat (destruct Hin as [<-|Hin];
      [split; [first [eexists _, _; reflexivity | apply Hmem; assumption] | reflexivity]|]).
    destruct Hin. }
  split; [exact Hp|].
  rewrite filter_app, length_app, length_app.
  assert (Hf : filter is_const out = out).
  { clear Hlen. induction out as [|x out IHo]; [reflexivity|].
    simpl in Hconst |- *. apply andb_prop in Hconst. destruct Hconst as [-> Hr].
    now rewrite IHo. }
  rewrite Hf, Hlen. split; reflexivity.
Qed.

(** X14: what C4 promises on the failure side: when a fetch fails, the cycle
    sends only the three meta series, with the health gauge at 0, and does
    not panic. *)
Lemma Collect_fetch_failure_meta_only (w : World) :
  let '(w', out, panicked) :=
    Collect Do decode_nodes decode_metrics decode_stats decode_management w in
  (forall w1 e, fetchAndDecodeNodes Do decode_nodes (map_coll inc_totalScrapes w) = (w1, inr e) ->
     out = meta_samples (coll w') /\ panicked = false /\ up (coll w') = 0%float) /\
  (forall w1 n w2 e,
     fetchAndDecodeNodes Do decode_nodes (map_coll inc_totalScrapes w) = (w1, inl n) ->
     fetchAndDecodeMetrics Do decode_metrics w1 = (w2, inr e) ->
     out = meta_samples (coll w') /\ panicked = false /\ up (coll w') = 0%float) /\
  (forall w1 n w2 m w3 e,
     fetchAndDecodeNodes Do decode_nodes (map_coll inc_totalScrapes w) = (w1, inl n) ->
     fetchAndDecodeMetrics Do decode_metrics w1 = (w2, inl m) ->
     fetchAndDecodeStats Do decode_stats w2 = (w3, inr e) ->
     out = meta_samples (coll w') /\ panicked = false /\ up (coll w') = 0%float) /\
  (forall w1 n w2 m w3 st w4 e,
     fetchAndDecodeNodes Do decode_nodes (map_coll inc_totalScrapes w) = (w1, inl n) ->
     fetchAndDecodeMetrics Do decode_metrics w1 = (w2, inl m) ->
     fetchAndDecodeStats Do decode_stats w2 = (w3, inl st) ->
     fetchAndDecodeManagment Do decode_management w3 = (w4, inr e) ->
     out = meta_samples (coll w') /\ panicked = false /\ up (coll w') = 0%float).
Proof.
  unfold Collect. cbv beta zeta.
  destruct (fetchAndDecodeNodes Do decode_nodes _) as [w1 [n|e1]] eqn:E1;
    [|repeat split; intros; congruence || auto].
  destruct (fetchAndDecodeMetrics Do decode_metrics w1) as [w2 [m|e2]] eqn:E2;
    [|repeat split; intros; congruence || auto].
  destruct (fetchAndDecodeStats Do decode_stats w2) as [w3 [st|e3]] eqn:E3;
    [|repeat split; intros; congruence || auto].
  destruct (fetchAndDecodeManagment Do decode_management w3) as [w4 [g|e4]] eqn:E4;
    [|repeat split; intros; congruence || auto].
  match goal with
  | |- context [emit_metrics ?ms ?v ?l ?w5] =>
      destruct (emit_metrics ms v l w5) as [[w6 out] p]
  end.
  repeat split; intros; congruence.
Qed.

End Env.

(** C10: the registry has 49 definitions, all gauges labelled
    [node, otp_release, version]; no operation changes the collector's
    registry, so every run keeps the one [NewEMQCollector] built. *)
Theorem registry_shape (ParseFloat : string -> float * option parse_error) :
  length (registry ParseFloat) = 49%nat /\
  Forall (fun m => Type_ m = GaugeValue /\ variableLabels (Desc m) = defaultLabels)
    (registry ParseFloat) /\
  defaultLabels = ["node"; "otp_release"; "version"] /\
  (forall Do dn dm ds dg ops node username password url log,
     Client.metrics (coll (run Do dn dm ds dg ops
       (mk_World (NewEMQCollector ParseFloat node username password) url log)))
     = registry ParseFloat).
Proof.
  split; [reflexivity|]. split; [|split; [reflexivity|]].
  - unfold registry.
    repeat (apply Forall_cons; [split; reflexivity|]). apply Forall_nil.
  - intros Do dn dm ds dg ops node username password url log.
    apply (run_frame Do dn dm ds dg ops).
Qed.

End CollectFacts.

(** ** The cycle on concrete inputs *)

Module ConcreteFacts.
Import Regexp Memory Schema Registry Client Scenario MemoryFacts CollectFacts.
Local Open Scope string_scope.

(** C1, at its failing input: a [memory_total] of ["unknown"] has no
    digit, [FindAllString] returns an empty slice and [str[0]] panics,
    whatever [strconv.ParseFloat] does; the cycle panics after all four
    fetches succeeded and logs no conversion error. *)
Theorem memory_unknown_panics (ParseFloat : string -> float * option parse_error) :
  memory_value ParseFloat "unknown" = VPanic /\
  FindAllString validID "unknown" = [] /\
  (let '(w, _, panicked) := collect_with "unknown" [member "emq@127.0.0.1" "2.3"] in
   panicked = true /\ log w = []).
Proof.
  split; [reflexivity|]. split; [reflexivity|]. vm_compute. split; reflexivity.
Qed.

(** C4, at the same input: with all four fetches answered 200 and
    decoded, the cycle sends 4 of the 49 per-metric samples and the
    three meta series, then panics. *)
Theorem Collect_memory_unknown_partial :
  length (Client.metrics collector) = 49%nat /\
  (let '(_, out, panicked) := collect_with "unknown" [member "emq@127.0.0.1" "2.3"] in
   panicked = true /\ length (filter is_const out) = 4%nat /\ length out = 7%nat) /\
  (let '(_, out, panicked) := collect_with "512.25M" [member "emq@127.0.0.1" "2.3"] in
   panicked = false /\ length (filter is_const out) = 49%nat /\ length out = 52%nat).
Proof. vm_compute. repeat split; reflexivity. Qed.

(** C2 fails: with two membership records named like the node, versions
    ["2.3"] then ["2.4"], every per-metric sample carries ["2.4"], the
    version of the second record, not of the first. *)
Lemma Collect_version_not_first :
  (let '(_, out, _) := collect_with "512.25M"
       [member "emq@127.0.0.1" "2.3"; member "emq@127.0.0.1" "2.4"] in
   map version_label (filter is_const out) = repeat "2.4" 49) /\
  "2.4" <> "2.3".
Proof. split; [vm_compute; reflexivity | discriminate]. Qed.

(** C3 fails: [u := *c.url] copies the [*url.URL], not the [url.URL], so
    [fetchAndDecodeNodes] rewrites the path of the configured base address.
    If a concurrent cycle's [fetchAndDecodeManagment] writes its path
    between the path write and the request of [fetchAndDecodeNodes], the
    node-status fetch asks for the membership endpoint, gets a body it
    cannot decode, and counts a parse failure. *)
Theorem fetch_writes_shared_url (Do : request -> http_result)
    (decode_nodes : string -> option nodesResponse) :
  url_cell world0 = mk_URL "http" "127.0.0.1:8080" "" /\
  url_cell (fst (fetchAndDecodeNodes Do decode_nodes world0)) =
    mk_URL "http" "127.0.0.1:8080" "/api/v2/monitoring/nodes/emq@127.0.0.1" /\
  snd (fetchAndDecodeNodes Do_route decode_nodes_strict world0) = inl (nodes_payload "512.25M") /\
  (let interleaved :=
     set_url_path (management_path collector) (set_url_path (nodes_path collector) world0) in
   req_url (build_request interleaved) = "http://127.0.0.1:8080/api/v2/management/nodes" /\
   snd (send_and_decode Do_route decode_nodes_strict interleaved) = inr DecodeError /\
   jsonParseFailures (coll (fst (send_and_decode Do_route decode_nodes_strict interleaved)))
     = S (jsonParseFailures (coll world0))).
Proof.
  split; [reflexivity|]. split.
  - unfold fetchAndDecodeNodes. rewrite fetch_url_cell. reflexivity.
  - split; [reflexivity|]. cbv zeta. repeat split; reflexivity.
Qed.

(** C8: the [subscribers] and [subscriptions] entries are two distinct
    definitions of the registry (positions 46 and 47) whose values both
    read [SubscribersCount]. *)
Theorem subscribers_subscriptions_same_value (ParseFloat : string -> float * option parse_error) :
  exists m1 m2,
    nth_error (registry ParseFloat) 46 = Some m1 /\
    nth_error (registry ParseFloat) 47 = Some m2 /\
    fqName (Desc m1) = "emq_stats_subscribers" /\
    fqName (Desc m2) = "emq_stats_subscriptions" /\
    (forall values, Value m1 values = int_value (SubscribersCount (Result (stats values))) /\
                    Value m2 values = Value m1 values).
Proof.
  do 2 eexists. split; [reflexivity|]. split; [reflexivity|].
  split; [reflexivity|]. split; [reflexivity|].
  intro values. split; reflexivity.
Qed.

(** Witness: Collect_up_from_code on the default deployment, all four fetches answered. *)
Lemma Collect_up_from_code_witness :
  let dn := decode_nodes_ok "512.25M" in
  let dg := decode_management_ok [member "emq@127.0.0.1" "2.3"] in
  let w0 := map_coll inc_totalScrapes world0 in
  let w1 := fst (fetchAndDecodeNodes Do_ok dn w0) in
  let w2 := fst (fetchAndDecodeMetrics Do_ok decode_metrics_ok w1) in
  let w3 := fst (fetchAndDecodeStats Do_ok decode_stats_ok w2) in
  let w4 := fst (fetchAndDecodeManagment Do_ok dg w3) in
  (fetchAndDecodeNodes Do_ok dn w0 = (w1, inl (nodes_payload "512.25M")) /\
   fetchAndDecodeMetrics Do_ok decode_metrics_ok w1 = (w2, inl metrics_payload) /\
   fetchAndDecodeStats Do_ok decode_stats_ok w2 = (w3, inl stats_payload) /\
   fetchAndDecodeManagment Do_ok dg w3 = (w4, inl (management_payload [member "emq@127.0.0.1" "2.3"]))) /\
  (let '(w', out, _) := Collect Do_ok dn decode_metrics_ok decode_stats_ok dg world0 in
   up (coll w') = (if Z.eqb (Code (nodes_payload "512.25M")) 0 then 1%float else 0%float) /\
   In (SUp (if Z.eqb (Code (nodes_payload "512.25M")) 0 then 1%float else 0%float)) out).
Proof.
  intros dn dg w0 w1 w2 w3 w4.
  assert (H1 : fetchAndDecodeNodes Do_ok dn w0 = (w1, inl (nodes_payload "512.25M")))
    by reflexivity.
  assert (H2 : fetchAndDecodeMetrics Do_ok decode_metrics_ok w1 = (w2, inl metrics_payload))
    by reflexivity.
  assert (H3 : fetchAndDecodeStats Do_ok decode_stats_ok w2 = (w3, inl stats_payload))
    by reflexivity.
  assert (H4 : fetchAndDecodeManagment Do_ok dg w3 = (w4, inl (management_payload [member "emq@127.0.0.1" "2.3"])))
    by reflexivity.
  split; [tauto|].
  exact (Collect_up_from_code Do_ok dn decode_metrics_ok decode_stats_ok dg world0 w1 w2 w3 w4
    _ _ _ _ H1 H2 H3 H4).
Defined.

(** Witness: Collect_version_last_match on the default deployment, all four fetches answered. *)
Lemma Collect_version_last_match_witness :
  let dn := decode_nodes_ok "512.25M" in
  let dg := decode_management_ok [member "emq@127.0.0.1" "2.3"; member "emq@127.0.0.1" "2.4"] in
  let w0 := map_coll inc_totalScrapes world0 in
  let w1 := fst (fetchAndDecodeNodes Do_ok dn w0) in
  let w2 := fst (fetchAndDecodeMetrics Do_ok decode_metrics_ok w1) in
  let w3 := fst (fetchAndDecodeStats Do_ok decode_stats_ok w2) in
  let w4 := fst (fetchAndDecodeManagment Do_ok dg w3) in
  (fetchAndDecodeNodes Do_ok dn w0 = (w1, inl (nodes_payload "512.25M")) /\
   fetchAndDecodeMetrics Do_ok decode_metrics_ok w1 = (w2, inl metrics_payload) /\
   fetchAndDecodeStats Do_ok decode_stats_ok w2 = (w3, inl stats_payload) /\
   fetchAndDecodeManagment Do_ok dg w3 = (w4, inl (management_payload [member "emq@127.0.0.1" "2.3"; member "emq@127.0.0.1" "2.4"]))) /\
  (let '(_, out, _) := Collect Do_ok dn decode_metrics_ok decode_stats_ok dg world0 in
   (forall l1 v l2, Result (management_payload [member "emq@127.0.0.1" "2.3"; member "emq@127.0.0.1" "2.4"]) = app l1 (v :: l2) -> Name v = node (coll world0) ->
      Forall (fun x => Name x <> node (coll world0)) l2 ->
      forall s, In s out -> is_const s = true ->
        exists d t x, s = SConst d t x [NodeName (Result (nodes_payload "512.25M")); Release (Result (nodes_payload "512.25M")); Version v]) /\
   (Forall (fun x => Name x <> node (coll world0)) (Result (management_payload [member "emq@127.0.0.1" "2.3"; member "emq@127.0.0.1" "2.4"])) ->
      forall s, In s out -> is_const s = true ->
        exists d t x, s = SConst d t x [NodeName (Result (nodes_payload "512.25M")); Release (Result (nodes_payload "512.25M")); ""])).
Proof.
  intros dn dg w0 w1 w2 w3 w4.
  assert (H1 : fetchAndDecodeNodes Do_ok dn w0 = (w1, inl (nodes_payload "512.25M")))
    by reflexivity.
  assert (H2 : fetchAndDecodeMetrics Do_ok decode_metrics_ok w1 = (w2, inl metrics_payload))
    by reflexivity.
  assert (H3 : fetchAndDecodeStats Do_ok decode_stats_ok w2 = (w3, inl stats_payload))
    by reflexivity.
  assert (H4 : fetchAndDecodeManagment Do_ok dg w3 = (w4, inl (management_payload [member "emq@127.0.0.1" "2.3"; member "emq@127.0.0.1" "2.4"])))
    by reflexivity.
  split; [tauto|].
  exact (Collect_version_last_match Do_ok dn decode_metrics_ok decode_stats_ok dg world0 w1 w2 w3 w4
    _ _ _ _ H1 H2 H3 H4).
Defined.

End ConcreteFacts.

(** ** Further properties of the collector *)

Module ExtraFacts.
Import Regexp Memory Schema Registry Client Scenario RegexpFacts MemoryFacts CollectFacts.
Local Open Scope string_scope.

Lemma nodupb_NoDup (l : list string) : nodupb l = true -> NoDup l.
Proof.
  induction l as [|x l IH]; simpl; intro H; [constructor|].
  apply andb_prop in H as [Hx Hl]. constructor; [|exact (IH Hl)].
  intro Hin. apply negb_true_iff in Hx.
  assert (Hex : existsb (String.eqb x) l = true)
    by (apply existsb_exists; exists x; split; [exact Hin | apply String.eqb_refl]).
  congruence.
Qed.

Lemma In_firstn {A} (k : nat) (x : A) (l : list A) : In x (firstn k l) -> In x l.
Proof.
  intro H. rewrite <- (firstn_skipn k l). apply in_or_app. now left.
Qed.

Lemma Forall2_In_r {A B} (R : A -> B -> Prop) (l1 : list A) (l2 : list B) (y : B) :
  Forall2 R l1 l2 -> In y l2 -> exists x, In x l1 /\ R x y.
Proof.
  induction 1 as [|x y' l1 l2 Hxy _ IH]; intro Hy; [destruct Hy|].
  destruct Hy as [<-|Hy].
  - exists x. split; [now left | exact Hxy].
  - destruct (IH Hy) as (x' & Hx' & Hr). exists x'. split; [now right | exact Hr].
Qed.

(** The per-metric loop: its samples are, in order, those of a prefix of
    the metric list, each computed from [values]; it reaches the end of
    the list unless it panicked. *)
Lemma emit_metrics_prefix (ms : list metric) (values : combinedResponse)
    (labels : list string) (w : World) :
  let '(_, out, panicked) := emit_metrics ms values labels w in
  exists k, (k <= length ms)%nat /\ (panicked = false -> k = length ms) /\
    Forall2 (fun m s => exists v logged, Value m values = VOk v logged /\
               length labels = length (variableLabels (Desc m)) /\
               s = SConst (Desc m) (Type_ m) v labels) (firstn k ms) out.
Proof.
  revert w; induction ms as [|m ms IH]; intro w; simpl.
  - exists O. split; [lia|]. split; [reflexivity | constructor].
  - destruct (Value m values) as [v logged|] eqn:Hv.
    + destruct (Nat.eqb (length labels) (length (variableLabels (Desc m)))) eqn:Hl.
      * specialize (IH (if logged then log_Error "error converting string into number" w else w)).
        destruct (emit_metrics ms values labels _) as [[w2 out] p].
        destruct IH as (k & Hk & Hp & Hf).
        exists (S k). split; [lia|]. split; [intro H; now rewrite (Hp H)|].
        simpl. constructor; [|exact Hf].
        exists v, logged. apply Nat.eqb_eq in Hl. auto.
      * exists O. split; [lia|]. split; [discriminate | constructor].
    + exists O. split; [lia|]. split; [discriminate | constructor].
Qed.

Lemma emit_metrics_world (ms : list metric) (values : combinedResponse)
    (labels : list string) (w w' : World) :
  snd (fst (emit_metrics ms values labels w)) = snd (fst (emit_metrics ms values labels w')) /\
  snd (emit_metrics ms values labels w) = snd (emit_metrics ms values labels w').
Proof.
  revert w w'; induction ms as [|m ms IH]; intros w w'; simpl; [auto|].
  destruct (Value m values) as [v logged|]; [|auto].
  destruct (Nat.eqb _ _); [|auto].
  destruct (IH (if logged then log_Error "error converting string into number" w else w)
               (if logged then log_Error "error converting string into number" w' else w'))
    as [H1 H2].
  destruct (emit_metrics ms values labels (if logged then _ else w)) as [[w2 out] p].
  destruct (emit_metrics ms values labels (if logged then _ else w')) as [[w2' out'] p'].
  simpl in *. subst. auto.
Qed.

Lemma fetch_jsonParseFailures {T} (path : Collector -> string) (decode : string -> option T)
    (Do : request -> http_result) (w w' : World) (r : T + fetch_error) :
  fetch Do path decode w = (w', r) ->
  jsonParseFailures (coll w') = jsonParseFailures (coll w) \/
  (jsonParseFailures (coll w') = S (jsonParseFailures (coll w)) /\ r = inr DecodeError).
Proof.
  unfold fetch, send_and_decode.
  destruct (Do _) as [|code body]; [intro H; inversion H; subst; now left|].
  destruct (negb (Z.eqb code 200)); [intro H; inversion H; subst; now left|].
  destruct (decode body); intro H; inversion H; subst; [now left | right; now split].
Qed.

Lemma fetch_log {T} (path : Collector -> string) (decode : string -> option T)
    (Do : request -> http_result) (w : World) :
  log (fst (fetch Do path decode w)) = log w.
Proof.
  unfold fetch, send_and_decode.
  destruct (Do _) as [|code body]; [reflexivity|].
  destruct (negb (Z.eqb code 200)); [reflexivity|].
  destruct (decode body); reflexivity.
Qed.

Lemma fetch_same_config {T} (path : Collector -> string) (decode : string -> option T)
    (Do : request -> http_result) (w w' : World) :
  same_config w w' -> path (coll w) = path (coll w') ->
  snd (fetch Do path decode w) = snd (fetch Do path decode w') /\
  same_config (fst (fetch Do path decode w)) (fst (fetch Do path decode w')).
Proof.
  intros Hs Hp. unfold fetch, send_and_decode.
  assert (Hreq : build_request (set_url_path (path (coll w)) w) =
                 build_request (set_url_path (path (coll w')) w')).
  { unfold build_request, set_url_path, url_String, same_config in *. simpl.
    destruct Hs as (_ & Hu & Hpw & _ & Hsc & Hh). congruence. }
  rewrite Hreq.
  destruct (Do _) as [|code body]; [split; [reflexivity | exact Hs]|].
  destruct (negb (Z.eqb code 200)); [split; [reflexivity | exact Hs]|].
  unfold same_config in *.
  destruct (decode body); simpl; split; tauto.
Qed.

Ltac emit_split :=
  match goal with
  | |- context [emit_metrics ?ms ?v ?l ?w5] =>
      pose proof (emit_metrics_coll ms v l w5) as Ecoll;
      pose proof (emit_metrics_prefix ms v l w5) as Epre;
      destruct (emit_metrics ms v l w5) as [[w6 out] p]
  end.

(** X1: at every point of a process built by [NewEMQCollector],
    [Describe] sends 52 descriptors whose fully-qualified names all start
    with [emq_] and are pairwise distinct, as the registry requires. *)
Theorem Describe_names_distinct (ParseFloat : string -> float * option parse_error)
    (Do : request -> http_result) dn dm ds dg (ops : list op)
    (node username password : string) (url : URL) (log : list string) :
  let w := run Do dn dm ds dg ops
             (mk_World (NewEMQCollector ParseFloat node username password) url log) in
  length (Describe w) = 52%nat /\
  Forall (fun d => prefix "emq_" (fqName d) = true) (Describe w) /\
  NoDup (map fqName (Describe w)).
Proof.
  cbv zeta. unfold Describe.
  rewrite (proj1 (run_frame Do dn dm ds dg ops _)). simpl Client.metrics.
  split; [reflexivity|]. split.
  - unfold registry. repeat (apply Forall_cons; [reflexivity|]). apply Forall_nil.
  - apply nodupb_NoDup. vm_compute. reflexivity.
Qed.

Section Env.
Variable Do : request -> http_result.
Variable decode_nodes : string -> option nodesResponse.
Variable decode_metrics : string -> option metricsResponse.
Variable decode_stats : string -> option statsResponse.
Variable decode_management : string -> option managementResponse.

Ltac use_frames :=
  repeat match goal with
  | E : fetch ?D ?p ?d ?w = (?w', ?r) |- _ =>
      pose proof (fetch_frame D decode_nodes decode_metrics decode_stats decode_management
        p d w w' r E) as (? & ? & ? & ? & ? & ?); clear E
  end.

Ltac collect_cases :=
  unfold Collect, fetchAndDecodeNodes, fetchAndDecodeMetrics,
    fetchAndDecodeStats, fetchAndDecodeManagment; cbv beta zeta;
  destruct (fetch Do nodes_path decode_nodes _) as [? [?|?]] eqn:?;
  [ destruct (fetch Do metrics_path decode_metrics _) as [? [?|?]] eqn:?;
    [ destruct (fetch Do stats_path decode_stats _) as [? [?|?]] eqn:?;
      [ destruct (fetch Do management_path decode_management _) as [? [?|?]] eqn:?
      | ]
    | ]
  | ].

Lemma Collect_jsonParseFailures_step (w : World) :
  let '(w', out, _) :=
    Collect Do decode_nodes decode_metrics decode_stats decode_management w in
  jsonParseFailures (coll w') = jsonParseFailures (coll w) \/
  (jsonParseFailures (coll w') = S (jsonParseFailures (coll w)) /\
   filter is_const out = [] /\ up (coll w') = 0%float).
Proof.
  collect_cases;
  repeat match goal with
  | E : fetch _ _ _ _ = (_, _) |- _ =>
      apply fetch_jsonParseFailures in E; destruct E as [?|[? ?]];
      [|try discriminate]
  end; simpl in *;
  try (first [left; lia | right; repeat split; lia]).
  emit_split. simpl in *. rewrite Ecoll. simpl. left. lia.
Qed.


(** X2: every per-metric sample a [Collect] sends has a descriptor that
    [Describe] lists, and as many label values as that descriptor has
    variable labels. *)
Theorem Collect_samples_described (w : World) :
  let '(_, out, _) :=
    Collect Do decode_nodes decode_metrics decode_stats decode_management w in
  forall d t v l, In (SConst d t v l) out ->
    In d (Describe w) /\ length l = length (variableLabels d).
Proof.
  collect_cases; simpl;
    try (intros d t v l Hin; simpl in Hin; intuition discriminate).
  use_frames. emit_split. simpl in *.
  intros d t v l Hin. apply in_app_or in Hin. destruct Hin as [Hin|Hin];
    [|simpl in Hin; intuition discriminate].
  destruct Epre as (k & _ & _ & Hf).
  destruct (Forall2_In_r _ _ _ _ Hf Hin) as (mt & Hmt & v' & lg & _ & Hlen & Heq).
  injection Heq as -> _ _ ->. split; [|exact Hlen].
  unfold Describe. apply in_or_app. left. apply in_map.
  apply In_firstn in Hmt. congruence.
Qed.

Lemma emit_metrics_log (ms : list metric) (values : combinedResponse)
    (labels : list string) (w : World) :
  exists j, log (fst (fst (emit_metrics ms values labels w))) =
            app (log w) (repeat "error converting string into number" j).
Proof.
  revert w; induction ms as [|m ms IH]; intro w; simpl; [exists O; now rewrite app_nil_r|].
  destruct (Value m values) as [v logged|]; [|exists O; simpl; now rewrite app_nil_r].
  set (w1 := if logged then log_Error "error converting string into number" w else w).
  assert (Hw1 : exists j, log w1 = app (log w) (repeat "error converting string into number" j)).
  { unfold w1. destruct logged; [exists 1%nat; reflexivity | exists O; now rewrite app_nil_r]. }
  destruct Hw1 as (j1 & Hj1).
  destruct (Nat.eqb _ _); [|now exists j1].
  destruct (IH w1) as (j2 & Hj2).
  destruct (emit_metrics ms values labels w1) as [[w2 out] p]. simpl in *.
  exists (j1 + j2)%nat. rewrite Hj2, Hj1, repeat_app, app_assoc. reflexivity.
Qed.

Lemma emit_metrics_cons (m : metric) (ms : list metric) (values : combinedResponse)
    (labels : list string) (w : World) (v : float) (logged : bool) :
  Value m values = VOk v logged -> length labels = length (variableLabels (Desc m)) ->
  hd_error (snd (fst (emit_metrics (m :: ms) values labels w))) =
    Some (SConst (Desc m) (Type_ m) v labels).
Proof.
  intros Hv Hl. simpl. rewrite Hv, Hl, Nat.eqb_refl.
  destruct (emit_metrics ms values labels _) as [[w2 out] p]. reflexivity.
Qed.

Lemma exec_jsonParseFailures (o : op) (w : World) :
  let w' := fst (exec Do decode_nodes decode_metrics decode_stats decode_management o w) in
  (jsonParseFailures (coll w) <= jsonParseFailures (coll w') <= S (jsonParseFailures (coll w)))%nat.
Proof.
  cbv zeta. destruct o; simpl.
  - pose proof (Collect_jsonParseFailures_step w) as H.
    destruct (Collect _ _ _ _ _ w) as [[w' out] p]. simpl. destruct H as [H|[H _]]; lia.
  - lia.
  - destruct (fetchAndDecodeNodes Do decode_nodes w) as [w' r] eqn:E. simpl.
    apply fetch_jsonParseFailures in E. destruct E as [E|[E _]]; lia.
  - destruct (fetchAndDecodeMetrics Do decode_metrics w) as [w' r] eqn:E. simpl.
    apply fetch_jsonParseFailures in E. destruct E as [E|[E _]]; lia.
  - destruct (fetchAndDecodeStats Do decode_stats w) as [w' r] eqn:E. simpl.
    apply fetch_jsonParseFailures in E. destruct E as [E|[E _]]; lia.
  - destruct (fetchAndDecodeManagment Do decode_management w) as [w' r] eqn:E. simpl.
    apply fetch_jsonParseFailures in E. destruct E as [E|[E _]]; lia.
Qed.

(** X3: a [Collect] counts at most one JSON parse failure. When it
    counts one, the cycle stopped at that fetch: no per-metric sample is
    sent, the health gauge is 0 and the one log line written is the
    decode error. *)
Theorem Collect_parse_failures_at_most_one (w : World) :
  let '(w', out, _) :=
    Collect Do decode_nodes decode_metrics decode_stats decode_management w in
  jsonParseFailures (coll w') = jsonParseFailures (coll w) \/
  (jsonParseFailures (coll w') = S (jsonParseFailures (coll w)) /\
   filter is_const out = [] /\ up (coll w') = 0%float /\
   log w' = app (log w) ["invalid JSON"]).
Proof.
  collect_cases;
  repeat match goal with
  | E : fetch ?D ?p ?d ?x = (?y, ?r) |- _ =>
      let Hl := fresh "Hl" in
      pose proof (fetch_log p d D x) as Hl; rewrite E in Hl; simpl in Hl;
      apply fetch_jsonParseFailures in E; destruct E as [?|[? ?]]; [|try discriminate]
  end;
  repeat match goal with H : inr _ = inr _ |- _ => injection H as -> end;
  simpl in *;
  try (first [left; lia | right; split; [lia|]; split; [reflexivity|];
                         split; [reflexivity | congruence]]).
  emit_split. simpl in *. rewrite Ecoll. simpl. left. lia.
Qed.

(** X4: over any sequence of operations the JSON parse-failure counter
    never decreases, and each operation adds at most one to it. *)
Theorem run_parse_failures_bounded (ops : list op) (w : World) :
  let w' := run Do decode_nodes decode_metrics decode_stats decode_management ops w in
  (jsonParseFailures (coll w) <= jsonParseFailures (coll w') <=
   jsonParseFailures (coll w) + length ops)%nat.
Proof.
  cbv zeta. revert w; induction ops as [|o ops IH]; intro w; simpl; [lia|].
  pose proof (exec_jsonParseFailures o w) as H. simpl in H.
  destruct (exec _ _ _ _ _ o w) as [w' crashed]. simpl in H.
  destruct crashed; [lia|]. specialize (IH w'). lia.
Qed.

(** X5: whatever the fetches give, the samples of a [Collect] end with
    the three meta series, read from the collector at the end of the
    call (also when it panics), after per-metric samples only; the health
    gauge it leaves is 0 or 1. *)
Theorem Collect_meta_samples_last (w : World) :
  let '(w', out, _) :=
    Collect Do decode_nodes decode_metrics decode_stats decode_management w in
  exists consts, out = app consts (meta_samples (coll w')) /\
    forallb is_const consts = true /\ (up (coll w') = 0%float \/ up (coll w') = 1%float).
Proof.
  collect_cases; simpl;
    try (exists []; split; [reflexivity | split; [reflexivity | now left]]).
  emit_split. destruct Epre as (k & _ & _ & Hf).
  exists out. split; [reflexivity|]. split.
  - apply forallb_forall. intros smp Hsmp.
    destruct (Forall2_In_r _ _ _ _ Hf Hsmp) as (mt & _ & v & lg & _ & _ & ->). reflexivity.
  - simpl in Ecoll. rewrite Ecoll. simpl. destruct (Z.eqb _ 0); [now right | now left].
Qed.

(** X6: once the four fetches succeeded, the per-metric samples are,
    in registry order, those of a prefix of the collector's metric list,
    each computed from the one snapshot of the four payloads with the
    same three label values; the prefix is the whole list unless the call
    panicked. *)
Theorem Collect_samples_in_registry_order (w w1 w2 w3 w4 : World) (n : nodesResponse)
    (m : metricsResponse) (st : statsResponse) (g : managementResponse)
    (H1 : fetchAndDecodeNodes Do decode_nodes (map_coll inc_totalScrapes w) = (w1, inl n))
    (H2 : fetchAndDecodeMetrics Do decode_metrics w1 = (w2, inl m))
    (H3 : fetchAndDecodeStats Do decode_stats w2 = (w3, inl st))
    (H4 : fetchAndDecodeManagment Do decode_management w3 = (w4, inl g)) :
  let values := mk_combinedResponse n m st (Z.of_nat (length (Result g))) in
  let labels := [NodeName (Result n); Release (Result n);
                 Version (find_management (node (coll w)) (Result g))] in
  let '(w', out, panicked) :=
    Collect Do decode_nodes decode_metrics decode_stats decode_management w in
  exists k consts, out = app consts (meta_samples (coll w')) /\
    (panicked = false -> k = length (Client.metrics (coll w))) /\
    Forall2 (fun mt s => exists v logged, Value mt values = VOk v logged /\
                           s = SConst (Desc mt) (Type_ mt) v labels)
      (firstn k (Client.metrics (coll w))) consts.
Proof.
  pose proof (Collect_success_node Do decode_nodes decode_metrics decode_stats decode_management
    w w1 w2 w3 w4 n m st g H1 H2 H3 H4) as [Hn Hm].
  rewrite (Collect_success Do decode_nodes decode_metrics decode_stats decode_management
    w w1 w2 w3 w4 n m st g H1 H2 H3 H4). cbv zeta.
  simpl Client.metrics. rewrite Hm, Hn.
  emit_split. destruct Epre as (k & _ & Hp & Hf).
  exists k, out. split; [reflexivity|]. split; [exact Hp|].
  eapply Forall2_impl; [|exact Hf].
  intros mt smp (v & lg & Hv & _ & Hsmp). eauto.
Qed.

(** X7: with the registry of [NewEMQCollector], once the four fetches
    succeeded the first sample sent is [emq_cluster_size], a gauge whose
    value is the number of records in the membership payload. *)
Theorem Collect_cluster_size_first (ParseFloat : string -> float * option parse_error)
    (w w1 w2 w3 w4 : World) (n : nodesResponse) (m : metricsResponse)
    (st : statsResponse) (g : managementResponse)
    (H1 : fetchAndDecodeNodes Do decode_nodes (map_coll inc_totalScrapes w) = (w1, inl n))
    (H2 : fetchAndDecodeMetrics Do decode_metrics w1 = (w2, inl m))
    (H3 : fetchAndDecodeStats Do decode_stats w2 = (w3, inl st))
    (H4 : fetchAndDecodeManagment Do decode_management w3 = (w4, inl g))
    (Hreg : Client.metrics (coll w) = registry ParseFloat) :
  let '(_, out, _) :=
    Collect Do decode_nodes decode_metrics decode_stats decode_management w in
  exists d labels,
    hd_error out = Some (SConst d GaugeValue (float_of_Z (Z.of_nat (length (Result g)))) labels) /\
    fqName d = "emq_cluster_size".
Proof.
  pose proof (Collect_success_node Do decode_nodes decode_metrics decode_stats decode_management
    w w1 w2 w3 w4 n m st g H1 H2 H3 H4) as [_ Hm].
  rewrite (Collect_success Do decode_nodes decode_metrics decode_stats decode_management
    w w1 w2 w3 w4 n m st g H1 H2 H3 H4). cbv zeta.
  simpl Client.metrics. rewrite Hm, Hreg.
  assert (Hh : exists m0 ms, registry ParseFloat = m0 :: ms /\
    fqName (Desc m0) = "emq_cluster_size" /\ Type_ m0 = GaugeValue /\
    variableLabels (Desc m0) = defaultLabels /\
    (forall values, Value m0 values = int_value (ClusterSize values)))
    by (do 2 eexists; split; [reflexivity | repeat split]).
  destruct Hh as (m0 & ms & Er & Hname & Htype & Hlab & Hval). rewrite Er.
  match goal with
  | |- context [emit_metrics (m0 :: ms) ?v ?l ?w5] =>
      pose proof (emit_metrics_cons m0 ms v l w5 _ _ (Hval v)
                    ltac:(rewrite Hlab; reflexivity)) as Hhd;
      destruct (emit_metrics (m0 :: ms) v l w5) as [[w6 out] p]
  end.
  simpl in Hhd. destruct out as [|s out]; [discriminate Hhd|].
  injection Hhd as ->. rewrite Htype. simpl. do 2 eexists. split; [reflexivity | exact Hname].
Qed.

(** X8: the samples of a [Collect] do not depend on the history of the
    collector: two worlds with the same node, credentials, registry and
    base scheme and host, whatever their counters, gauge, log or the path
    left in the shared URL, give the same per-metric samples, the same
    panic outcome and the same health gauge. *)
Theorem Collect_history_independent (w w' : World) (Hs : same_config w w') :
  let '(v, out, p) :=
    Collect Do decode_nodes decode_metrics decode_stats decode_management w in
  let '(v', out', p') :=
    Collect Do decode_nodes decode_metrics decode_stats decode_management w' in
  filter is_const out = filter is_const out' /\ p = p' /\ up (coll v) = up (coll v').
Proof.
  unfold Collect, fetchAndDecodeNodes, fetchAndDecodeMetrics,
    fetchAndDecodeStats, fetchAndDecodeManagment; cbv beta zeta.
  assert (S0 : same_config (map_coll inc_totalScrapes w) (map_coll inc_totalScrapes w'))
    by exact Hs.
  destruct (fetch_same_config nodes_path decode_nodes Do _ _ S0) as [R1 S1];
    [unfold nodes_path; destruct S0 as [-> _]; reflexivity|].
  destruct (fetch Do nodes_path decode_nodes (map_coll inc_totalScrapes w)) as [x1 r1].
  destruct (fetch Do nodes_path decode_nodes (map_coll inc_totalScrapes w')) as [x1' r1'].
  simpl in R1, S1. subst r1'. destruct r1 as [n|e]; [|simpl; auto].
  destruct (fetch_same_config metrics_path decode_metrics Do _ _ S1) as [R2 S2];
    [unfold metrics_path; destruct S1 as [-> _]; reflexivity|].
  destruct (fetch Do metrics_path decode_metrics x1) as [x2 r2].
  destruct (fetch Do metrics_path decode_metrics x1') as [x2' r2'].
  simpl in R2, S2. subst r2'. destruct r2 as [m|e]; [|simpl; auto].
  destruct (fetch_same_config stats_path decode_stats Do _ _ S2) as [R3 S3];
    [unfold stats_path; destruct S2 as [-> _]; reflexivity|].
  destruct (fetch Do stats_path decode_stats x2) as [x3 r3].
  destruct (fetch Do stats_path decode_stats x2') as [x3' r3'].
  simpl in R3, S3. subst r3'. destruct r3 as [st|e]; [|simpl; auto].
  destruct (fetch_same_config management_path decode_management Do _ _ S3) as [R4 S4];
    [reflexivity|].
  destruct (fetch Do management_path decode_management x3) as [x4 r4].
  destruct (fetch Do management_path decode_management x3') as [x4' r4'].
  simpl in R4, S4. subst r4'. destruct r4 as [g|e]; [|simpl; auto].
  destruct S4 as (Hn & _ & _ & Hm & _). simpl Client.metrics. simpl node.
  rewrite Hn, Hm.
  match goal with
  | |- context [emit_metrics ?ms ?v ?l (map_coll ?f x4)] =>
      pose proof (emit_metrics_world ms v l (map_coll f x4) (map_coll f x4')) as [Eo Ep];
      pose proof (emit_metrics_coll ms v l (map_coll f x4)) as C;
      pose proof (emit_metrics_coll ms v l (map_coll f x4')) as C';
      destruct (emit_metrics ms v l (map_coll f x4)) as [[y out] p];
      destruct (emit_metrics ms v l (map_coll f x4')) as [[y' out'] p']
  end.
  simpl in *. subst out' p'. rewrite C, C', !filter_app. simpl. auto.
Qed.

(** X9: the log lines a [Collect] writes: either exactly one line, the
    text of the error of the fetch that failed, with no per-metric sample
    sent; or only conversion-error lines of the memory fields. *)
Theorem Collect_log_lines (w : World) :
  let '(w', out, _) :=
    Collect Do decode_nodes decode_metrics decode_stats decode_management w in
  (exists e, log w' = app (log w) [error_string e] /\ filter is_const out = []) \/
  (exists j, log w' = app (log w) (repeat "error converting string into number" j)).
Proof.
  collect_cases;
  repeat match goal with
  | E : fetch ?D ?p ?d ?x = (?y, ?r) |- _ =>
      let Hl := fresh "Hl" in
      pose proof (fetch_log p d D x) as Hl; rewrite E in Hl; simpl in Hl; clear E
  end; simpl in *.
  1: match goal with
     | |- context [emit_metrics ?ms ?v ?l ?w5] =>
         pose proof (emit_metrics_log ms v l w5) as (j & Hj);
         destruct (emit_metrics ms v l w5) as [[w6 out] p]
     end;
     simpl in *; right; exists j; congruence.
  all: match goal with
       | |- context [error_string ?f] => left; exists f; split; [congruence | reflexivity]
       end.
Qed.

End Env.


Lemma first_run_none_iff (l : list ascii) :
  first_run_spec l = None <-> forallb (fun c => negb (is_digit c)) l = true.
Proof.
  induction l as [|c l IH]; simpl; [tauto|].
  destruct (is_digit c); simpl; [split; discriminate | exact IH].
Qed.

Lemma forallb_take_while (p : ascii -> bool) (l : list ascii) :
  forallb p (take_while p l) = true.
Proof.
  induction l as [|c l IH]; simpl; [reflexivity|].
  case_eq (p c); intro Hc; simpl; [now rewrite Hc, IH | reflexivity].
Qed.

(** The run [validID] consumes at a digit: [d1] or [d1.d2]. *)
Lemma run_at_spec_shape (c : ascii) (s : list ascii) :
  is_digit c = true ->
  exists d1 d2, d1 <> [] /\ forallb is_digit d1 = true /\ forallb is_digit d2 = true /\
    (run_at_spec (c :: s) = d1 \/ (d2 <> [] /\ run_at_spec (c :: s) = app d1 ("."%char :: d2))).
Proof.
  intro Hc. unfold run_at_spec.
  pose proof (take_while_nil_head is_digit c s Hc) as Hne.
  pose proof (forallb_take_while is_digit (c :: s)) as Hall.
  set (d1 := take_while is_digit (c :: s)) in *.
  destruct (drop_while is_digit (c :: s)) as [|c' r].
  - exists d1, []. repeat split; auto.
  - destruct (is_dot c') eqn:Edot.
    + unfold is_dot in Edot. apply Ascii.eqb_eq in Edot. subst c'.
      pose proof (forallb_take_while is_digit r) as Hall2.
      destruct (take_while is_digit r) as [|d l] eqn:E2.
      * exists d1, []. repeat split; auto.
      * exists d1, (d :: l). repeat split; auto. right. split; [discriminate | reflexivity].
    + exists d1, []. repeat split; auto.
Qed.

Lemma first_run_shape (l m : list ascii) :
  first_run_spec l = Some m ->
  exists d1 d2, d1 <> [] /\ forallb is_digit d1 = true /\ forallb is_digit d2 = true /\
    (m = d1 \/ (d2 <> [] /\ m = app d1 ("."%char :: d2))).
Proof.
  induction l as [|c l IH]; simpl; [discriminate|].
  case_eq (is_digit c); intros Hc H; [|exact (IH H)].
  injection H as <-. exact (run_at_spec_shape c l Hc).
Qed.

Lemma find_all_first_run (fuel : nat) (l m : list ascii) :
  In m (find_all_fuel fuel validID l) -> exists l', first_run_spec l' = Some m.
Proof.
  revert l; induction fuel as [|f IH]; intros l Hin; simpl in Hin; [destruct Hin|].
  pose proof (find_first_validID l) as Hf.
  destruct (find_first validID l) as [[m0 rest]|]; [|destruct Hin].
  destruct Hin as [<-|Hin]; [now exists l | exact (IH rest Hin)].
Qed.

Lemma list_ascii_of_string_append (s t : string) :
  list_ascii_of_string (s ++ t) = app (list_ascii_of_string s) (list_ascii_of_string t).
Proof. induction s as [|c s IH]; simpl; [reflexivity | now rewrite IH]. Qed.

Lemma first_run_skip (l1 l2 : list ascii) :
  forallb (fun c => negb (is_digit c)) l1 = true ->
  first_run_spec (app l1 l2) = first_run_spec l2.
Proof.
  induction l1 as [|c l1 IH]; simpl; [reflexivity|].
  destruct (is_digit c); simpl; [discriminate | exact IH].
Qed.

(** X11: a memory field's [Value] panics exactly when the field holds no
    decimal digit; with a digit anywhere it returns a value. *)
Theorem memory_value_panics_iff_no_digit (ParseFloat : string -> float * option parse_error)
    (s : string) :
  memory_value ParseFloat s = VPanic <->
  forallb (fun c => negb (is_digit c)) (list_ascii_of_string s) = true.
Proof.
  rewrite memory_value_spec, <- first_run_none_iff.
  destruct (first_run_spec (list_ascii_of_string s)).
  - destruct (ParseFloat _). split; discriminate.
  - split; reflexivity.
Qed.

(** X12: every string [validID.FindAllString] returns is a decimal
    literal: one or more digits, optionally followed by a point and one
    or more digits. *)
Theorem FindAllString_decimal_literals (s m : string)
    (Hin : In m (FindAllString validID s)) :
  exists d1 d2, d1 <> [] /\ forallb is_digit d1 = true /\ forallb is_digit d2 = true /\
    (list_ascii_of_string m = d1 \/
     (d2 <> [] /\ list_ascii_of_string m = app d1 ("."%char :: d2))).
Proof.
  unfold FindAllString in Hin. apply in_map_iff in Hin. destruct Hin as (l & <- & Hl).
  rewrite list_ascii_of_string_of_list_ascii.
  destruct (find_all_first_run _ _ _ Hl) as (l' & Hl').
  exact (first_run_shape l' l Hl').
Qed.

(** X13: text without digits before a memory figure does not change the
    extracted value. *)
Theorem memory_value_skips_prefix (ParseFloat : string -> float * option parse_error)
    (pre s : string)
    (Hpre : forallb (fun c => negb (is_digit c)) (list_ascii_of_string pre) = true) :
  memory_value ParseFloat (pre ++ s) = memory_value ParseFloat s.
Proof.
  rewrite !memory_value_spec, list_ascii_of_string_append, first_run_skip by exact Hpre.
  reflexivity.
Qed.

End ExtraFacts.

(** ** Witnesses of the further properties, on the default deployment *)

Module ExtraWitnesses.
Import Regexp Memory Schema Registry Client Scenario MemoryFacts CollectFacts ExtraFacts.
Local Open Scope string_scope.

(** Witness: Collect_samples_in_registry_order, all four fetches answered. *)
Lemma Collect_samples_in_registry_order_witness :
  let dn := decode_nodes_ok "512.25M" in
  let dg := decode_management_ok [member "emq@127.0.0.1" "2.3"] in
  let w0 := map_coll inc_totalScrapes world0 in
  let w1 := fst (fetchAndDecodeNodes Do_ok dn w0) in
  let w2 := fst (fetchAndDecodeMetrics Do_ok decode_metrics_ok w1) in
  let w3 := fst (fetchAndDecodeStats Do_ok decode_stats_ok w2) in
  let w4 := fst (fetchAndDecodeManagment Do_ok dg w3) in
  (fetchAndDecodeNodes Do_ok dn w0 = (w1, inl (nodes_payload "512.25M")) /\
   fetchAndDecodeMetrics Do_ok decode_metrics_ok w1 = (w2, inl metrics_payload) /\
   fetchAndDecodeStats Do_ok decode_stats_ok w2 = (w3, inl stats_payload) /\
   fetchAndDecodeManagment Do_ok dg w3 = (w4, inl (management_payload [member "emq@127.0.0.1" "2.3"]))) /\
  (let values := mk_combinedResponse (nodes_payload "512.25M") metrics_payload stats_payload
                   (Z.of_nat (length (Result (management_payload [member "emq@127.0.0.1" "2.3"])))) in
   let labels := [NodeName (Result (nodes_payload "512.25M")); Release (Result (nodes_payload "512.25M"));
                  Version (find_management (node (coll world0)) (Result (management_payload [member "emq@127.0.0.1" "2.3"])))] in
   let '(w', out, panicked) := Collect Do_ok dn decode_metrics_ok decode_stats_ok dg world0 in
   exists k consts, out = app consts (meta_samples (coll w')) /\
     (panicked = false -> k = length (Client.metrics (coll world0))) /\
     Forall2 (fun mt s => exists v logged, Value mt values = VOk v logged /\
                            s = SConst (Desc mt) (Type_ mt) v labels)
       (firstn k (Client.metrics (coll world0))) consts).
Proof.
  intros dn dg w0 w1 w2 w3 w4.
  assert (H1 : fetchAndDecodeNodes Do_ok dn w0 = (w1, inl (nodes_payload "512.25M")))
    by reflexivity.
  assert (H2 : fetchAndDecodeMetrics Do_ok decode_metrics_ok w1 = (w2, inl metrics_payload))
    by reflexivity.
  assert (H3 : fetchAndDecodeStats Do_ok decode_stats_ok w2 = (w3, inl stats_payload))
    by reflexivity.
  assert (H4 : fetchAndDecodeManagment Do_ok dg w3 = (w4, inl (management_payload [member "emq@127.0.0.1" "2.3"])))
    by reflexivity.
  split; [tauto|].
  exact (Collect_samples_in_registry_order Do_ok dn decode_metrics_ok decode_stats_ok dg
    world0 w1 w2 w3 w4 _ _ _ _ H1 H2 H3 H4).
Defined.

(** Witness: Collect_cluster_size_first, with the registry of the default collector. *)
Lemma Collect_cluster_size_first_witness :
  let dn := decode_nodes_ok "512.25M" in
  let dg := decode_management_ok [member "emq@127.0.0.1" "2.3"] in
  let w0 := map_coll inc_totalScrapes world0 in
  let w1 := fst (fetchAndDecodeNodes Do_ok dn w0) in
  let w2 := fst (fetchAndDecodeMetrics Do_ok decode_metrics_ok w1) in
  let w3 := fst (fetchAndDecodeStats Do_ok decode_stats_ok w2) in
  let w4 := fst (fetchAndDecodeManagment Do_ok dg w3) in
  (fetchAndDecodeNodes Do_ok dn w0 = (w1, inl (nodes_payload "512.25M")) /\
   fetchAndDecodeMetrics Do_ok decode_metrics_ok w1 = (w2, inl metrics_payload) /\
   fetchAndDecodeStats Do_ok decode_stats_ok w2 = (w3, inl stats_payload) /\
   fetchAndDecodeManagment Do_ok dg w3 = (w4, inl (management_payload [member "emq@127.0.0.1" "2.3"]))) /\
  Client.metrics (coll world0) = registry ParseFloat_exact /\
  (let '(_, out, _) := Collect Do_ok dn decode_metrics_ok decode_stats_ok dg world0 in
   exists d labels,
     hd_error out = Some (SConst d GaugeValue
                            (float_of_Z (Z.of_nat (length (Result (management_payload [member "emq@127.0.0.1" "2.3"]))))) labels) /\
     fqName d = "emq_cluster_size").
Proof.
  intros dn dg w0 w1 w2 w3 w4.
  assert (H1 : fetchAndDecodeNodes Do_ok dn w0 = (w1, inl (nodes_payload "512.25M")))
    by reflexivity.
  assert (H2 : fetchAndDecodeMetrics Do_ok decode_metrics_ok w1 = (w2, inl metrics_payload))
    by reflexivity.
  assert (H3 : fetchAndDecodeStats Do_ok decode_stats_ok w2 = (w3, inl stats_payload))
    by reflexivity.
  assert (H4 : fetchAndDecodeManagment Do_ok dg w3 = (w4, inl (management_payload [member "emq@127.0.0.1" "2.3"])))
    by reflexivity.
  assert (Hreg : Client.metrics (coll world0) = registry ParseFloat_exact) by reflexivity.
  split; [tauto|]. split; [exact Hreg|].
  exact (Collect_cluster_size_first Do_ok dn decode_metrics_ok decode_stats_ok dg
    ParseFloat_exact world0 w1 w2 w3 w4 _ _ _ _ H1 H2 H3 H4 Hreg).
Defined.

(** Witness: Collect_success_all_samples, with both memory strings holding digits. *)
Lemma Collect_success_all_samples_witness :
  let dn := decode_nodes_ok "512.25M" in
  let dg := decode_management_ok [member "emq@127.0.0.1" "2.3"] in
  let w0 := map_coll inc_totalScrapes world0 in
  let w1 := fst (fetchAndDecodeNodes Do_ok dn w0) in
  let w2 := fst (fetchAndDecodeMetrics Do_ok decode_metrics_ok w1) in
  let w3 := fst (fetchAndDecodeStats Do_ok decode_stats_ok w2) in
  let w4 := fst (fetchAndDecodeManagment Do_ok dg w3) in
  (fetchAndDecodeNodes Do_ok dn w0 = (w1, inl (nodes_payload "512.25M")) /\
   fetchAndDecodeMetrics Do_ok decode_metrics_ok w1 = (w2, inl metrics_payload) /\
   fetchAndDecodeStats Do_ok decode_stats_ok w2 = (w3, inl stats_payload) /\
   fetchAndDecodeManagment Do_ok dg w3 = (w4, inl (management_payload [member "emq@127.0.0.1" "2.3"]))) /\
  Client.metrics (coll world0) = registry ParseFloat_exact /\
  first_run_spec (list_ascii_of_string (MemoryTotal (Result (nodes_payload "512.25M")))) <> None /\
  first_run_spec (list_ascii_of_string (MemoryUsed (Result (nodes_payload "512.25M")))) <> None /\
  (let '(_, out, panicked) := Collect Do_ok dn decode_metrics_ok decode_stats_ok dg world0 in
   panicked = false /\ length (filter is_const out) = 49%nat /\ length out = 52%nat).
Proof.
  intros dn dg w0 w1 w2 w3 w4.
  assert (H1 : fetchAndDecodeNodes Do_ok dn w0 = (w1, inl (nodes_payload "512.25M")))
    by reflexivity.
  assert (H2 : fetchAndDecodeMetrics Do_ok decode_metrics_ok w1 = (w2, inl metrics_payload))
    by reflexivity.
  assert (H3 : fetchAndDecodeStats Do_ok decode_stats_ok w2 = (w3, inl stats_payload))
    by reflexivity.
  assert (H4 : fetchAndDecodeManagment Do_ok dg w3 = (w4, inl (management_payload [member "emq@127.0.0.1" "2.3"])))
    by reflexivity.
  assert (Hreg : Client.metrics (coll world0) = registry ParseFloat_exact) by reflexivity.
  assert (Ht : first_run_spec (list_ascii_of_string (MemoryTotal (Result (nodes_payload "512.25M")))) <> None)
    by (intro H; vm_compute in H; discriminate H).
  assert (Hu : first_run_spec (list_ascii_of_string (MemoryUsed (Result (nodes_payload "512.25M")))) <> None)
    by (intro H; vm_compute in H; discriminate H).
  split; [tauto|]. split; [exact Hreg|]. split; [exact Ht|]. split; [exact Hu|].
  exact (Collect_success_all_samples Do_ok dn decode_metrics_ok decode_stats_ok dg
    ParseFloat_exact world0 w1 w2 w3 w4 _ _ _ _ H1 H2 H3 H4 Hreg Ht Hu).
Defined.

(** Witness: Collect_history_independent, against a world that already ran
    a failed cycle (other counters, gauge, log and URL path). *)
Lemma Collect_history_independent_witness :
  let dn := decode_nodes_ok "512.25M" in
  let dg := decode_management_ok [member "emq@127.0.0.1" "2.3"] in
  let w' := mk_World (set_up 1%float (inc_totalScrapes (inc_jsonParseFailures collector)))
              (mk_URL "http" "127.0.0.1:8080" "/api/v2/management/nodes") ["invalid JSON"] in
  same_config world0 w' /\
  (let '(v, out, p) := Collect Do_ok dn decode_metrics_ok decode_stats_ok dg world0 in
   let '(v', out', p') := Collect Do_ok dn decode_metrics_ok decode_stats_ok dg w' in
   filter is_const out = filter is_const out' /\ p = p' /\ up (coll v) = up (coll v')).
Proof.
  intros dn dg w'.
  assert (Hs : same_config world0 w') by (repeat split).
  split; [exact Hs|].
  exact (Collect_history_independent Do_ok dn decode_metrics_ok decode_stats_ok dg
    world0 w' Hs).
Defined.


(** Witness: FindAllString_decimal_literals, at ["128.5MB of 256MB"]. *)
Lemma FindAllString_decimal_literals_witness :
  In "128.5" (FindAllString validID "128.5MB of 256MB") /\
  exists d1 d2, d1 <> [] /\ forallb is_digit d1 = true /\ forallb is_digit d2 = true /\
    (list_ascii_of_string "128.5" = d1 \/
     (d2 <> [] /\ list_ascii_of_string "128.5" = app d1 ("."%char :: d2))).
Proof.
  assert (H : In "128.5" (FindAllString validID "128.5MB of 256MB"))
    by (vm_compute; left; reflexivity).
  split; [exact H|].
  exact (FindAllString_decimal_literals "128.5MB of 256MB" "128.5" H).
Defined.

(** Witness: memory_value_skips_prefix, at ["total: 512.25M"]. *)
Lemma memory_value_skips_prefix_witness :
  forallb (fun c => negb (is_digit c)) (list_ascii_of_string "total: ") = true /\
  memory_value ParseFloat_exact ("total: " ++ "512.25M") = memory_value ParseFloat_exact "512.25M".
Proof.
  assert (H : forallb (fun c => negb (is_digit c)) (list_ascii_of_string "total: ") = true)
    by (vm_compute; reflexivity).
  split; [exact H|].
  exact (memory_value_skips_prefix ParseFloat_exact "total: " "512.25M" H).
Defined.

End ExtraWitnesses.
